(** * AI Workflow Builder: the task and workflow execution model

    A shallow embedding of [AIWorkflowBuilder] (ai_workflow_builder.py):
    the [Task] dataclass, the per-type handlers, [execute_task] with its
    try/except, the workflow registry, [execute_workflow] and
    [export_workflow_results].

    Everything outside the process is an oracle of the environment [Env]:
    the wall clock, the chat-completion backend, pandas and the file
    system.  A Python [str] is a list of code points. *)

From Stdlib Require Import QArith.
From stdpp Require Import gmap list pretty.

Set Default Proof Using "Type".
Open Scope N_scope.

(** ** Python text *)

Abbreviation pystr := (list N).

(** An ASCII literal as a Python string. *)
Definition py (s : string) : pystr :=
  (λ a, Ascii.N_of_ascii a) <$> String.list_ascii_of_string s.
Arguments py : simpl never.

(** Code points that [str.split()] with no argument treats as separators
    (the ones for which [str.isspace] holds). *)
Definition is_space (c : N) : bool :=
  ((9 <=? c) && (c <=? 13)) || ((28 <=? c) && (c <=? 32))
  || (c =? 133) || (c =? 160) || (c =? 5760)
  || ((8192 <=? c) && (c <=? 8202))
  || (c =? 8232) || (c =? 8233) || (c =? 8239) || (c =? 8287) || (c =? 12288).

(** [s.split()]: maximal runs of non-space code points, in order.  [cur]
    holds the current run, most recent code point first. *)
Fixpoint split_from (cur s : pystr) : list pystr :=
  match s with
  | [] => match cur with [] => [] | _ => [reverse cur] end
  | c :: rest =>
      if is_space c
      then match cur with
           | [] => split_from [] rest
           | _ => reverse cur :: split_from [] rest
           end
      else split_from (c :: cur) rest
  end.

Definition split (s : pystr) : list pystr := split_from [] s.

(** [s.split(sep)] for a separator of one code point ([s.split(',')],
    say): the pieces between separators, empty ones included. *)
Fixpoint split_on_from (sep : N) (cur s : pystr) : list pystr :=
  match s with
  | [] => [ reverse cur ]
  | c :: rest =>
      if (c =? sep)%N then reverse cur :: split_on_from sep [] rest
      else split_on_from sep (c :: cur) rest
  end.

Definition split_on (sep : N) (s : pystr) : list pystr := split_on_from sep [] s.

(** [sep.join(pieces)] *)
Fixpoint join (sep : pystr) (pieces : list pystr) : pystr :=
  match pieces with
  | [] => []
  | [ piece ] => piece
  | piece :: rest => piece ++ sep ++ join sep rest
  end.

(** How many times [c] is repeated at the start of [s]. *)
Fixpoint leading (c : N) (s : pystr) : nat :=
  match s with
  | [] => O
  | x :: rest => if (x =? c)%N then S (leading c rest) else O
  end.

(** Code points that UTF-8 has no encoding for: the surrogates, which a
    Python [str] can hold on their own. *)
Definition surrogate (c : N) : bool := (55296 <=? c) && (c <=? 57343).

(** [s.encode('utf-8')] does not raise. *)
Definition utf8_encodable (s : pystr) : bool := forallb (λ c, negb (surrogate c)) s.

(** [s.endswith(suffix)] *)
Definition endswith (s suffix : pystr) : bool :=
  bool_decide (drop (length s - length suffix)%nat s = suffix).

(** ** Task types *)

Inductive TaskType :=
| CONTENT_WRITING
| DATA_ANALYSIS
| TEXT_SUMMARIZATION
| EMAIL_GENERATION
| TRANSLATION
| CODE_GENERATION.

Global Instance TaskType_eq_dec : EqDecision TaskType.
Proof. solve_decision. Defined.

(** [TaskType.X.value] *)
Definition value (t : TaskType) : pystr :=
  match t with
  | CONTENT_WRITING => py "content_writing"
  | DATA_ANALYSIS => py "data_analysis"
  | TEXT_SUMMARIZATION => py "text_summarization"
  | EMAIL_GENERATION => py "email_generation"
  | TRANSLATION => py "translation"
  | CODE_GENERATION => py "code_generation"
  end.

(** [str(TaskType.X)], which is what [json.dump(..., default=str)] writes
    for an enum member. *)
Definition str_TaskType (t : TaskType) : pystr :=
  match t with
  | CONTENT_WRITING => py "TaskType.CONTENT_WRITING"
  | DATA_ANALYSIS => py "TaskType.DATA_ANALYSIS"
  | TEXT_SUMMARIZATION => py "TaskType.TEXT_SUMMARIZATION"
  | EMAIL_GENERATION => py "TaskType.EMAIL_GENERATION"
  | TRANSLATION => py "TaskType.TRANSLATION"
  | CODE_GENERATION => py "TaskType.CODE_GENERATION"
  end.

(** ** Python values

    [Dict[str, Any]] is an association list in insertion order.  A float
    is kept as the exact quotient it was computed from; rounding to
    binary64 is outside the model.  [VObj cls repr] is any other object
    (a numpy dtype, say) with its class name and its [str()]. *)

Local Unset Elimination Schemes.
Inductive PyVal :=
| VNone
| VBool (b : bool)
| VInt (z : Z)
| VFloat (q : Q)
| VStr (s : pystr)
| VList (l : list PyVal)
| VDict (d : list (pystr * PyVal))
| VEnum (t : TaskType)
| VObj (cls repr : pystr).
Local Set Elimination Schemes.

Abbreviation dict := (list (pystr * PyVal)).

(** [d.get(key, default)] *)
Fixpoint get (d : dict) (key : pystr) (default : PyVal) : PyVal :=
  match d with
  | [] => default
  | (k, v) :: rest => if bool_decide (k = key) then v else get rest key default
  end.

(** Truth value of an object, as [if x] and [not x] test it. *)
Definition truthy (v : PyVal) : bool :=
  match v with
  | VNone => false
  | VBool b => b
  | VInt z => negb (Z.eqb z 0)
  | VFloat q => negb (Qeq_bool q 0)
  | VStr s => negb (bool_decide (s = []))
  | VList l => negb (bool_decide (length l = 0%nat))
  | VDict d => negb (bool_decide (length d = 0%nat))
  | VEnum _ => true
  | VObj _ _ => true
  end.

(** [type(x).__name__] *)
Definition class_name (v : PyVal) : pystr :=
  match v with
  | VNone => py "NoneType"
  | VBool _ => py "bool"
  | VInt _ => py "int"
  | VFloat _ => py "float"
  | VStr _ => py "str"
  | VList _ => py "list"
  | VDict _ => py "dict"
  | VEnum _ => py "TaskType"
  | VObj cls _ => cls
  end.

(** ** Exceptions and results

    Only subclasses of [Exception] are modelled; [exc_msg] is [str(e)]. *)

Record Exc := { exc_class : pystr; exc_msg : pystr }.

Inductive Result (A : Type) :=
| Ok (a : A)
| Raise (e : Exc).
Arguments Ok {A} a.
Arguments Raise {A} e.

Definition ValueError (msg : pystr) : Exc :=
  {| exc_class := py "ValueError"; exc_msg := msg |}.
Definition TypeError (msg : pystr) : Exc :=
  {| exc_class := py "TypeError"; exc_msg := msg |}.
Definition AttributeError (msg : pystr) : Exc :=
  {| exc_class := py "AttributeError"; exc_msg := msg |}.
Definition ZeroDivisionError : Exc :=
  {| exc_class := py "ZeroDivisionError"; exc_msg := py "division by zero" |}.
Definition UnboundLocalError (name : pystr) : Exc :=
  {| exc_class := py "UnboundLocalError";
     exc_msg := py "cannot access local variable '" ++ name
                ++ py "' where it is not associated with a value" |}.

(** The error of the UTF-8 codec on a lone surrogate.  [detail] is the
    part of the message that names the character and its position. *)
Definition UnicodeEncodeError (detail : pystr) : Exc :=
  {| exc_class := py "UnicodeEncodeError";
     exc_msg := py "'utf-8' codec can't encode character" ++ detail
                ++ py ": surrogates not allowed" |}.

(** Messages of the [ValueError]s the builder raises itself. *)
Definition msg_data_file_missing : pystr :=
  [1605; 1604; 1601; 32; 1575; 1604; 1576; 1610; 1575; 1606; 1575; 1578; 32;
   1594; 1610; 1585; 32; 1605; 1608; 1580; 1608; 1583].
Definition msg_unsupported_file : pystr :=
  [1606; 1608; 1593; 32; 1605; 1604; 1601; 32; 1594; 1610; 1585; 32;
   1605; 1583; 1593; 1608; 1605].
Definition msg_workflow_missing (workflow_name : pystr) : pystr :=
  [1587; 1610; 1585; 32; 1575; 1604; 1593; 1605; 1604; 32; 39]
  ++ workflow_name
  ++ [39; 32; 1594; 1610; 1585; 32; 1605; 1608; 1580; 1608; 1583].
Definition msg_task_missing : pystr :=
  [1575; 1604; 1605; 1607; 1605; 1577; 32; 1594; 1610; 1585; 32;
   1605; 1608; 1580; 1608; 1583; 1577].

(** ** A state-and-exception monad

    A computation over a mutable state [S] either returns or raises; the
    state it leaves behind is kept in both cases, as Python keeps the
    mutations made before a [raise]. *)

Definition Eff (S A : Type) : Type := S → Result A * S.

Definition ret {S A} (a : A) : Eff S A := λ s, (Ok a, s).
Definition raise {S A} (e : Exc) : Eff S A := λ s, (Raise e, s).
Definition bind {S A B} (m : Eff S A) (k : A → Eff S B) : Eff S B :=
  λ s, match m s with
       | (Ok a, s') => k a s'
       | (Raise e, s') => (Raise e, s')
       end.
Definition gets {S A} (f : S → A) : Eff S A := λ s, (Ok (f s), s).
Definition modify {S} (f : S → S) : Eff S unit := λ s, (Ok tt, f s).
(** [try: body  except Exception as e: handler e] *)
Definition try_except {S A} (body : Eff S A) (handler : Exc → Eff S A) : Eff S A :=
  λ s, match body s with
       | (Ok a, s') => (Ok a, s')
       | (Raise e, s') => handler e s'
       end.
(** Run a computation on a component of the state. *)
Definition zoom {S T A} (rd : S → T) (wr : T → S → S) (m : Eff T A) : Eff S A :=
  λ s, match m (rd s) with (r, t') => (r, wr t' s) end.

Declare Scope eff_scope.
Delimit Scope eff_scope with eff.
Notation "'let*' x ':=' m 'in' k" := (bind m (λ x, k))
  (at level 10, x name, m at level 100, k at level 200, only parsing) : eff_scope.
Notation "m ';;' k" := (bind m (λ _, k))
  (at level 100, k at level 200, right associativity, only parsing) : eff_scope.
Open Scope eff_scope.

(** ** Arithmetic and attribute access on values *)

(** [x * 2] *)
Definition times2 (x : PyVal) : Result PyVal :=
  match x with
  | VInt z => Ok (VInt (z * 2))
  | VBool b => Ok (VInt (Z.b2z b * 2))
  | VFloat q => Ok (VFloat (q * 2))
  | VStr s => Ok (VStr (s ++ s))
  | VList l => Ok (VList (l ++ l))
  | _ => Raise (TypeError (py "unsupported operand type(s) for *: '"
                           ++ class_name x ++ py "' and 'int'"))
  end.

(** [x.split()]: only [str] has the method. *)
Definition split_method (x : PyVal) : Result (list pystr) :=
  match x with
  | VStr s => Ok (split s)
  | _ => Raise (AttributeError (py "'" ++ class_name x
                                ++ py "' object has no attribute 'split'"))
  end.

(** [a / b] on two [len(...)] results. *)
Definition true_div (a b : nat) : Result PyVal :=
  match b with
  | O => Raise ZeroDivisionError
  | S _ => Ok (VFloat (Z.of_nat a # Pos.of_nat b))
  end.

Definition len {A} (l : list A) : PyVal := VInt (Z.of_nat (length l)).

(** ** JSON documents

    A file written by [json.dump] is kept as the document tree it
    encodes; indentation and character escaping are not modelled. *)

Local Unset Elimination Schemes.
Inductive Json :=
| JNull
| JBool (b : bool)
| JInt (z : Z)
| JFloat (q : Q)
| JStr (s : pystr)
| JArr (l : list Json)
| JObj (members : list (pystr * Json)).
Local Set Elimination Schemes.

(** [json.dump(v, f, ensure_ascii=False, indent=2, default=str)]: what
    the encoder does not know is written as its [str()]. *)
Fixpoint json_dump (v : PyVal) : Json :=
  match v with
  | VNone => JNull
  | VBool b => JBool b
  | VInt z => JInt z
  | VFloat q => JFloat q
  | VStr s => JStr s
  | VList l => JArr (map json_dump l)
  | VDict d => JObj (map (λ kv, (kv.1, json_dump kv.2)) d)
  | VEnum t => JStr (str_TaskType t)
  | VObj _ repr => JStr repr
  end.

(** [json.load(f)] *)
Fixpoint json_load (j : Json) : PyVal :=
  match j with
  | JNull => VNone
  | JBool b => VBool b
  | JInt z => VInt z
  | JFloat q => VFloat q
  | JStr s => VStr s
  | JArr l => VList (map json_load l)
  | JObj members => VDict (map (λ kv, (kv.1, json_load kv.2)) members)
  end.

(** The text of a document can be encoded as UTF-8: with
    [ensure_ascii=False] every string, key or value, is written as it
    is. *)
Fixpoint encodable (j : Json) : bool :=
  match j with
  | JNull | JBool _ | JInt _ | JFloat _ => true
  | JStr s => utf8_encodable s
  | JArr l => forallb encodable l
  | JObj members => forallb (λ kv, utf8_encodable kv.1 && encodable kv.2) members
  end.

(** What a path holds: a complete document, or what a write that did not
    finish has left there.  [open(p, 'w')] empties the file before
    anything is written, so such a file holds a beginning of the text
    only; how much of it is not kept. *)
Inductive Content :=
| document (doc : Json)
| unfinished.

(** ** The wall clock *)

Record Datetime := {
  year : nat; month : nat; day : nat;
  hour : nat; minute : nat; second : nat; microsecond : nat
}.

Definition digit (n : nat) : N := 48 + N.of_nat (n mod 10).

(** The [width] low decimal digits of [n], zero padded. *)
Fixpoint zero_padded (width n : nat) : pystr :=
  match width with
  | O => []
  | S w => zero_padded w (n / 10) ++ [digit n]
  end.

(** [d.strftime('%H%M%S')] *)
Definition strftime_HMS (d : Datetime) : pystr :=
  zero_padded 2 (hour d) ++ zero_padded 2 (minute d) ++ zero_padded 2 (second d).

(** [d.isoformat()]: the fraction is omitted when it is zero. *)
Definition isoformat (d : Datetime) : pystr :=
  zero_padded 4 (year d) ++ py "-" ++ zero_padded 2 (month d) ++ py "-"
  ++ zero_padded 2 (day d) ++ py "T"
  ++ zero_padded 2 (hour d) ++ py ":" ++ zero_padded 2 (minute d) ++ py ":"
  ++ zero_padded 2 (second d)
  ++ (if Nat.eqb (microsecond d) 0 then [] else py "." ++ zero_padded 6 (microsecond d)).

(** Fields of a datetime, most significant first: naive datetimes
    compare in this order. *)
Definition fields (d : Datetime) : list nat :=
  [year d; month d; day d; hour d; minute d; second d; microsecond d].

Fixpoint lex_le (a b : list nat) : bool :=
  match a, b with
  | x :: a', y :: b' => Nat.ltb x y || (Nat.eqb x y && lex_le a' b')
  | [], _ => true
  | _ :: _, [] => false
  end.

(** [d1 <= d2] *)
Definition datetime_le (d1 d2 : Datetime) : bool := lex_le (fields d1) (fields d2).

(** ** The chat-completion request

    The two message templates are constants of each handler, so a request
    is recorded as the handler it comes from, the values interpolated
    into the system and the user message, and the sampling bounds. *)

Record ChatRequest := {
  model : pystr;
  handler : TaskType;
  system_args : list PyVal;
  user_args : list PyVal;
  max_tokens : PyVal;
  temperature : option Q
}.

(** What pandas reports about a loaded table. *)
Record DataFrame := {
  rows_count : nat;
  columns : list pystr;
  dtypes : dict;
  missing_values : dict;
  missing_total : Z;
  numeric_columns : nat;
  describe : dict
}.

(** ** The environment

    Each oracle is indexed by how many interactions of its kind came
    before, so an answer may change from one call to the next. *)

Record Env := {
  (** the n-th reading of [datetime.now()] *)
  now_at : nat → Datetime;
  (** the n-th [openai.ChatCompletion.acreate]:
      [response.choices[0].message.content], or the error raised *)
  acreate : nat → ChatRequest → Result pystr;
  (** [Path(p).exists()] at the n-th file-system access *)
  path_exists : nat → pystr → bool;
  (** [pd.read_csv(p)] / [pd.read_json(p)] at the n-th file-system access *)
  read_table : nat → pystr → Result DataFrame;
  (** the error, if any, of the n-th file-system access when it is
      [open(p, 'w')] *)
  open_for_writing : nat → pystr → option Exc;
  (** the error, if any, that the device raises while text is written to
      the file opened at the n-th file-system access, or when that file
      is closed (an [OSError]: no space left, say) *)
  write_error : nat → pystr → option Exc;
  (** what the [UnicodeEncodeError] of a document that cannot be encoded
      says about the character and its position in the piece of text
      being written, which depend on how the encoder cuts the text *)
  surrogate_position : Json → pystr
}.

(** The lines the builder prints, each with the values it interpolates. *)
Inductive Line :=
| task_started (title : pystr)
| task_completed (title : pystr)
| task_failed (title msg : pystr)
| workflow_started (workflow_name : pystr)
| workflow_task_count (n : nat)
| workflow_completed (workflow_name : pystr).

(** Everything outside the builder that a call can change. *)
Record World := {
  files : gmap pystr Content;
  stdout : list Line;
  clock_reads : nat;
  backend_calls : nat;
  fs_accesses : nat
}.

Definition set_files (f : gmap pystr Content → gmap pystr Content) (w : World)
    : World :=
  {| files := f (files w); stdout := stdout w; clock_reads := clock_reads w;
     backend_calls := backend_calls w; fs_accesses := fs_accesses w |}.
Definition set_stdout (f : list Line → list Line) (w : World) : World :=
  {| files := files w; stdout := f (stdout w); clock_reads := clock_reads w;
     backend_calls := backend_calls w; fs_accesses := fs_accesses w |}.
Definition tick_clock (w : World) : World :=
  {| files := files w; stdout := stdout w; clock_reads := S (clock_reads w);
     backend_calls := backend_calls w; fs_accesses := fs_accesses w |}.
Definition tick_backend (w : World) : World :=
  {| files := files w; stdout := stdout w; clock_reads := clock_reads w;
     backend_calls := S (backend_calls w); fs_accesses := fs_accesses w |}.
Definition tick_fs (w : World) : World :=
  {| files := files w; stdout := stdout w; clock_reads := clock_reads w;
     backend_calls := backend_calls w; fs_accesses := S (fs_accesses w) |}.

(** ** Tasks *)

Record Task := {
  id : pystr;
  type : TaskType;
  title : pystr;
  description : pystr;
  input_data : dict;
  output_data : option dict;
  status : pystr;
  created_at : pystr;
  completed_at : option pystr
}.

Definition set_output_data (o : option dict) (t : Task) : Task :=
  {| id := id t; type := type t; title := title t; description := description t;
     input_data := input_data t; output_data := o; status := status t;
     created_at := created_at t; completed_at := completed_at t |}.
Definition set_status (s : pystr) (t : Task) : Task :=
  {| id := id t; type := type t; title := title t; description := description t;
     input_data := input_data t; output_data := output_data t; status := s;
     created_at := created_at t; completed_at := completed_at t |}.
Definition set_created_at (c : pystr) (t : Task) : Task :=
  {| id := id t; type := type t; title := title t; description := description t;
     input_data := input_data t; output_data := output_data t; status := status t;
     created_at := c; completed_at := completed_at t |}.
Definition set_completed_at (c : option pystr) (t : Task) : Task :=
  {| id := id t; type := type t; title := title t; description := description t;
     input_data := input_data t; output_data := output_data t; status := status t;
     created_at := created_at t; completed_at := c |}.

Definition optional {A} (f : A → PyVal) (o : option A) : PyVal :=
  match o with Some a => f a | None => VNone end.

(** [dataclasses.asdict(task)]: one entry per field, in field order; the
    enum member stays an enum member. *)
Definition asdict (t : Task) : PyVal :=
  VDict [ (py "id", VStr (id t));
          (py "type", VEnum (type t));
          (py "title", VStr (title t));
          (py "description", VStr (description t));
          (py "input_data", VDict (input_data t));
          (py "output_data", optional VDict (output_data t));
          (py "status", VStr (status t));
          (py "created_at", VStr (created_at t));
          (py "completed_at", optional VStr (completed_at t)) ].

(** The builder: [self.tasks], [self.workflows], and the world it acts on. *)
Record Builder := {
  tasks : list Task;
  workflows : gmap pystr (list pystr);
  world : World
}.

Definition set_tasks (f : list Task → list Task) (b : Builder) : Builder :=
  {| tasks := f (tasks b); workflows := workflows b; world := world b |}.
Definition set_workflows (f : gmap pystr (list pystr) → gmap pystr (list pystr))
    (b : Builder) : Builder :=
  {| tasks := tasks b; workflows := f (workflows b); world := world b |}.
Definition set_world (w : World) (b : Builder) : Builder :=
  {| tasks := tasks b; workflows := workflows b; world := w |}.

(** The components of a path: the pieces between slashes, without the
    empty ones and the ones that are a single dot. *)
Definition path_parts (p : pystr) : list pystr :=
  filter (λ part, part ≠ [] ∧ part ≠ py ".") (split_on 47 p).

(** [str(self.results_dir / filename)] with [self.results_dir] being
    [Path("results")], on a POSIX system.  A file name that starts with a
    slash is absolute and replaces the directory; exactly two leading
    slashes are kept, any other number is one.  Components ".." are
    kept as they are. *)
Definition results_dir (filename : pystr) : pystr :=
  match leading 47 filename with
  | O => join (py "/") (py "results" :: path_parts filename)
  | 2%nat => py "//" ++ join (py "/") (path_parts filename)
  | _ => py "/" ++ join (py "/") (path_parts filename)
  end.

Section Orchestrator.

Variable env : Env.

(** *** Primitive interactions *)

Definition of_result {S A} (r : Result A) : Eff S A := λ s, (r, s).

(** [datetime.now()] *)
Definition datetime_now : Eff World Datetime :=
  λ w, (Ok (now_at env (clock_reads w)), tick_clock w).

(** [print(...)] *)
Definition print (l : Line) : Eff World unit :=
  modify (set_stdout (λ out, out ++ [l])).

(** [(await openai.ChatCompletion.acreate(...)).choices[0].message.content] *)
Definition chat_completion (req : ChatRequest) : Eff World pystr :=
  λ w, (acreate env (backend_calls w) req, tick_backend w).

(** [Path(p).exists()]: [Path] accepts a [str] only. *)
Definition Path_exists (p : PyVal) : Eff World bool :=
  match p with
  | VStr s => λ w, (Ok (path_exists env (fs_accesses w) s), tick_fs w)
  | _ => raise (TypeError (py "expected str, bytes or os.PathLike object, not "
                           ++ class_name p))
  end.

(** *** The [Task] constructor with its [__post_init__] *)

Definition new_Task (task_id : pystr) (task_type : TaskType) (t d : pystr)
    (input : dict) (created : pystr) : Eff World Task :=
  let task := {| id := task_id; type := task_type; title := t; description := d;
                 input_data := input; output_data := None;
                 status := py "pending"; created_at := created;
                 completed_at := None |} in
  if truthy (VStr created) then ret task
  else let* now := datetime_now in
       ret (set_created_at (isoformat now) task).

(** *** [add_task] and [create_workflow] *)

Definition add_task (task_type : TaskType) (t d : pystr) (input : dict)
    : Eff Builder pystr :=
  let* n := gets (λ b, length (tasks b)) in
  let* now := zoom world set_world datetime_now in
  let task_id := py "task_" ++ py (pretty n) ++ py "_" ++ strftime_HMS now in
  let* task := zoom world set_world (new_Task task_id task_type t d input []) in
  modify (set_tasks (λ l, l ++ [task])) ;;
  ret task_id.

Definition create_workflow (workflow_name : pystr) (task_ids : list pystr)
    : Eff Builder unit :=
  modify (set_workflows (λ m, <[workflow_name := task_ids]> m)).

(** *** The six handlers *)

Definition gpt_3_5_turbo : pystr := py "gpt-3.5-turbo".

Definition _generate_content (input : dict) : Eff World dict :=
  let prompt := get input (py "prompt") (VStr []) in
  let content_type := get input (py "content_type") (VStr (py "article")) in
  let language := get input (py "language") (VStr (py "arabic")) in
  let* content :=
    chat_completion {| model := gpt_3_5_turbo; handler := CONTENT_WRITING;
                       system_args := [content_type; language];
                       user_args := [prompt];
                       max_tokens := VInt 2000; temperature := Some (7 # 10) |} in
  ret [ (py "content", VStr content);
        (py "word_count", len (split content));
        (py "content_type", content_type);
        (py "language", language) ].

Definition _analyze_data (input : dict) : Eff World dict :=
  let data_path := get input (py "data_path") VNone in
  let* missing :=
    (if negb (truthy data_path) then ret true
     else let* found := Path_exists data_path in ret (negb found)) in
  if (missing : bool) then raise (ValueError msg_data_file_missing)
  else
    match data_path with
    | VStr p =>
        let read : Eff World DataFrame :=
          λ w, (read_table env (fs_accesses w) p, tick_fs w) in
        let* df :=
          (if endswith p (py ".csv") then read
           else if endswith p (py ".json") then read
           else raise (ValueError msg_unsupported_file)) in
        let analysis : dict :=
          [ (py "rows_count", VInt (Z.of_nat (rows_count df)));
            (py "columns_count", len (columns df));
            (py "columns", VList (VStr <$> columns df));
            (py "data_types", VDict (dtypes df));
            (py "missing_values", VDict (missing_values df));
            (py "basic_stats",
              if Nat.ltb 0 (numeric_columns df) then VDict (describe df)
              else VDict []) ] in
        let* insights :=
          chat_completion {| model := gpt_3_5_turbo; handler := DATA_ANALYSIS;
                             system_args := [];
                             user_args := [ VInt (Z.of_nat (rows_count df));
                                            len (columns df);
                                            VList (VStr <$> columns df);
                                            VInt (missing_total df) ];
                             max_tokens := VInt 1000; temperature := None |} in
        ret (analysis ++ [ (py "ai_insights", VStr insights) ])
    | _ => raise (AttributeError (py "'" ++ class_name data_path
                                  ++ py "' object has no attribute 'endswith'"))
    end.

(** The request of [_summarize_text], once [max_length * 2] is known. *)
Definition summarization_request (input : dict) (bound : PyVal) : ChatRequest :=
  let text := get input (py "text") (VStr []) in
  let max_length := get input (py "max_length") (VInt 150) in
  let language := get input (py "language") (VStr (py "arabic")) in
  {| model := gpt_3_5_turbo; handler := TEXT_SUMMARIZATION;
     system_args := [language];
     user_args := [max_length; language; text];
     max_tokens := bound; temperature := None |}.

Definition _summarize_text (input : dict) : Eff World dict :=
  let text := get input (py "text") (VStr []) in
  let max_length := get input (py "max_length") (VInt 150) in
  let* bound := of_result (times2 max_length) in
  let* summary := chat_completion (summarization_request input bound) in
  let* original_words := of_result (split_method text) in
  let* compression_ratio :=
    (if truthy text
     then let* text_words := of_result (split_method text) in
          of_result (true_div (length (split summary)) (length text_words))
     else ret (VInt 0)) in
  ret [ (py "original_length", len original_words);
        (py "summary", VStr summary);
        (py "summary_length", len (split summary));
        (py "compression_ratio", compression_ratio) ].

Definition _generate_email (input : dict) : Eff World dict :=
  let purpose := get input (py "purpose") (VStr []) in
  let recipient := get input (py "recipient") (VStr []) in
  let tone := get input (py "tone") (VStr (py "professional")) in
  let language := get input (py "language") (VStr (py "arabic")) in
  let* email_content :=
    chat_completion {| model := gpt_3_5_turbo; handler := EMAIL_GENERATION;
                       system_args := [];
                       user_args := [language; tone; purpose; recipient];
                       max_tokens := VInt 800; temperature := None |} in
  ret [ (py "email_content", VStr email_content);
        (py "purpose", purpose);
        (py "tone", tone);
        (py "language", language) ].

Definition _translate_text (input : dict) : Eff World dict :=
  let text := get input (py "text") (VStr []) in
  let source_lang := get input (py "source_language") (VStr (py "auto")) in
  let target_lang := get input (py "target_language") (VStr (py "arabic")) in
  let* text_words := of_result (split_method text) in
  let* translation :=
    chat_completion {| model := gpt_3_5_turbo; handler := TRANSLATION;
                       system_args := [];
                       user_args := [source_lang; target_lang; text];
                       max_tokens := VInt (Z.of_nat (length text_words) * 2);
                       temperature := None |} in
  ret [ (py "original_text", text);
        (py "translated_text", VStr translation);
        (py "source_language", source_lang);
        (py "target_language", target_lang) ].

Definition _generate_code (input : dict) : Eff World dict :=
  let task_description := get input (py "description") (VStr []) in
  let language := get input (py "programming_language") (VStr (py "python")) in
  let* code :=
    chat_completion {| model := gpt_3_5_turbo; handler := CODE_GENERATION;
                       system_args := [language];
                       user_args := [language; task_description];
                       max_tokens := VInt 1500; temperature := None |} in
  ret [ (py "code", VStr code);
        (py "programming_language", language);
        (py "description", task_description) ].

(** The [if]/[elif] chain of [execute_task]; its final [else] cannot be
    reached by a member of the closed enum. *)
Definition dispatch (task_type : TaskType) : dict → Eff World dict :=
  match task_type with
  | CONTENT_WRITING => _generate_content
  | DATA_ANALYSIS => _analyze_data
  | TEXT_SUMMARIZATION => _summarize_text
  | EMAIL_GENERATION => _generate_email
  | TRANSLATION => _translate_text
  | CODE_GENERATION => _generate_code
  end.

(** *** [_save_results] *)

(** [with open(path, 'w', encoding='utf-8') as f:
        json.dump(doc, f, ensure_ascii=False, indent=2, default=str)].
    When [open] raises, the file is as it was.  Once it is open it has
    been emptied, and it holds the whole document only if the writing
    gets to its end: an error of the device, or a string that UTF-8
    cannot encode, leaves the file unfinished and goes to the caller. *)
Definition write_json (path : pystr) (doc : PyVal) : Eff World unit :=
  λ w, match open_for_writing env (fs_accesses w) path with
       | Some e => (Raise e, tick_fs w)
       | None =>
           let text := json_dump doc in
           match write_error env (fs_accesses w) path with
           | Some e =>
               (Raise e, set_files (λ fs, <[path := unfinished]> fs) (tick_fs w))
           | None =>
               if encodable text
               then (Ok tt, set_files (λ fs, <[path := document text]> fs) (tick_fs w))
               else (Raise (UnicodeEncodeError (surrogate_position env text)),
                     set_files (λ fs, <[path := unfinished]> fs) (tick_fs w))
           end
       end.

Definition _save_results (task : Task) : Eff World unit :=
  let filename := id task ++ py "_" ++ value (type task) ++ py ".json" in
  write_json (results_dir filename) (asdict task).

(** *** [execute_task]

    The task object and the world are both mutated while the body runs;
    the handler of the [except] clause sees the task as the body left it. *)

Definition on_task {A} (m : Eff Task A) : Eff (Task * World) A :=
  zoom fst (λ t s, (t, s.2)) m.
Definition on_world {A} (m : Eff World A) : Eff (Task * World) A :=
  zoom snd (λ w s, (s.1, w)) m.

Definition execute_task_body : Eff (Task * World) dict :=
  try_except
    (on_task (modify (set_status (py "running"))) ;;
     let* task := gets fst in
     on_world (print (task_started (title task))) ;;
     let* result := on_world (dispatch (type task) (input_data task)) in
     on_task (modify (set_output_data (Some result))) ;;
     on_task (modify (set_status (py "completed"))) ;;
     let* now := on_world datetime_now in
     on_task (modify (set_completed_at (Some (isoformat now)))) ;;
     let* task := gets fst in
     on_world (_save_results task) ;;
     on_world (print (task_completed (title task))) ;;
     ret result)
    (λ e,
     on_task (modify (set_status (py "failed"))) ;;
     on_task (modify (set_output_data (Some [ (py "error", VStr (exc_msg e)) ]))) ;;
     let* task := gets fst in
     on_world (print (task_failed (title task) (exc_msg e))) ;;
     raise e).

(** [execute_task] on a task object [t] in world [w]: the outcome, the
    task after the call and the world after the call. *)
Definition execute_task_on (t : Task) (w : World) : Result dict * Task * World :=
  match execute_task_body (t, w) with (r, (t', w')) => (r, t', w') end.

(** [execute_task] on the task that [self.tasks[i]] refers to.  A position
    outside the list refers to no task object; the [IndexError] there
    only makes the function total. *)
Definition execute_task (i : nat) : Eff Builder dict :=
  λ b, match tasks b !! i with
       | Some t =>
           match execute_task_on t (world b) with
           | (r, t', w') => (r, set_world w' (set_tasks (λ l, <[i := t']> l) b))
           end
       | None => (Raise {| exc_class := py "IndexError";
                           exc_msg := py "list index out of range" |}, b)
       end.

(** *** [execute_workflow]

    [[t for t in self.tasks if t.id in task_ids]] collects references to
    task objects; a reference is the position of the task in
    [self.tasks]. *)

Fixpoint select_from (pos : nat) (ts : list Task) (task_ids : list pystr) : list nat :=
  match ts with
  | [] => []
  | t :: rest =>
      if bool_decide (id t ∈ task_ids)
      then pos :: select_from (S pos) rest task_ids
      else select_from (S pos) rest task_ids
  end.

Definition select (ts : list Task) (task_ids : list pystr) : list nat :=
  select_from 0 ts task_ids.

(** The [for task in tasks_to_execute] loop, with [results] so far. *)
Fixpoint for_each_task (todo : list nat) (results : list dict) : Eff Builder (list dict) :=
  match todo with
  | [] => ret results
  | i :: rest =>
      let* result := execute_task i in
      for_each_task rest (results ++ [result])
  end.

Definition execute_workflow (workflow_name : pystr) : Eff Builder (list dict) :=
  let* registry := gets workflows in
  match registry !! workflow_name with
  | None => raise (ValueError (msg_workflow_missing workflow_name))
  | Some task_ids =>
      let* ts := gets tasks in
      let tasks_to_execute := select ts task_ids in
      zoom world set_world (print (workflow_started workflow_name)) ;;
      zoom world set_world (print (workflow_task_count (length tasks_to_execute))) ;;
      let* results := for_each_task tasks_to_execute [] in
      zoom world set_world (print (workflow_completed workflow_name)) ;;
      ret results
  end.

(** *** [get_task_status] and [list_tasks] *)

Definition get_task_status (task_id : pystr) : Eff Builder PyVal :=
  let* ts := gets tasks in
  match filter (λ t, id t = task_id) ts with
  | [] => ret (VDict [ (py "error", VStr msg_task_missing) ])
  | task :: _ => ret (asdict task)
  end.

Definition list_tasks : Eff Builder (list PyVal) :=
  let* ts := gets tasks in ret (asdict <$> ts).

(** *** [export_workflow_results]

    The local [filepath] is bound in the [json] branch only; reading an
    unbound local raises [UnboundLocalError]. *)

Definition export_workflow_results (workflow_name format : pystr) : Eff Builder pystr :=
  let* registry := gets workflows in
  match registry !! workflow_name with
  | None => raise (ValueError (msg_workflow_missing workflow_name))
  | Some task_ids =>
      let* ts := gets tasks in
      let workflow_tasks := filter (λ t, id t ∈ task_ids) ts in
      let* now := zoom world set_world datetime_now in
      let results :=
        VDict [ (py "workflow_name", VStr workflow_name);
                (py "execution_date", VStr (isoformat now));
                (py "tasks", VList (asdict <$> workflow_tasks)) ] in
      let* filepath :=
        (if bool_decide (format = py "json")
         then let filename := workflow_name ++ py "_results.json" in
              let filepath := results_dir filename in
              zoom world set_world (write_json filepath results) ;;
              ret (Some filepath)
         else ret None) in
      match filepath with
      | Some path => ret path
      | None => raise (UnboundLocalError (py "filepath"))
      end
  end.

End Orchestrator.

(** ** A fresh builder and sequences of calls *)

Definition empty_world : World :=
  {| files := ∅; stdout := []; clock_reads := 0; backend_calls := 0;
     fs_accesses := 0 |}.

(** The builder right after [AIWorkflowBuilder(api_key)] with a key. *)
Definition new_builder (w : World) : Builder :=
  {| tasks := []; workflows := ∅; world := w |}.

(** One call of a public method, with its arguments. *)
Inductive Call :=
| call_add_task (task_type : TaskType) (t d : pystr) (input : dict)
| call_create_workflow (workflow_name : pystr) (task_ids : list pystr)
| call_execute_task (i : nat)
| call_execute_workflow (workflow_name : pystr)
| call_get_task_status (task_id : pystr)
| call_list_tasks
| call_export_workflow_results (workflow_name format : pystr).

(** What a call hands back to its caller. *)
Inductive Returned :=
| returned_id (task_id : pystr)
| returned_none
| returned_result (r : dict)
| returned_results (rs : list dict)
| returned_record (v : PyVal)
| returned_records (vs : list PyVal)
| returned_path (p : pystr).

Definition perform (env : Env) (c : Call) : Eff Builder Returned :=
  match c with
  | call_add_task ty t d input =>
      let* x := add_task env ty t d input in ret (returned_id x)
  | call_create_workflow n ids =>
      create_workflow n ids ;; ret returned_none
  | call_execute_task i =>
      let* x := execute_task env i in ret (returned_result x)
  | call_execute_workflow n =>
      let* x := execute_workflow env n in ret (returned_results x)
  | call_get_task_status task_id =>
      let* x := get_task_status task_id in ret (returned_record x)
  | call_list_tasks =>
      let* x := list_tasks in ret (returned_records x)
  | call_export_workflow_results n f =>
      let* x := export_workflow_results env n f in ret (returned_path x)
  end.

(** A caller that makes the calls one after the other and goes on after
    a call that raised; it keeps every outcome. *)
Fixpoint session (env : Env) (calls : list Call) (b : Builder)
    : list (Result Returned) * Builder :=
  match calls with
  | [] => ([], b)
  | c :: rest =>
      match perform env c b with
      | (r, b') =>
          match session env rest b' with
          | (rs, b'') => (r :: rs, b'')
          end
      end
  end.

Close Scope N_scope.

(** ** Vocabulary of the statements *)

(** The world after one more printed line. *)
Definition say (l : Line) (w : World) : World := set_stdout (λ out, out ++ [l]) w.

(** What the [except] clause of [execute_task] makes of a task. *)
Definition failed_with (e : Exc) (t : Task) : Task :=
  set_output_data (Some [ (py "error", VStr (exc_msg e)) ])
    (set_status (py "failed") t).

(** What the success path of [execute_task] makes of a task. *)
Definition completed_with (result : dict) (now : Datetime) (t : Task) : Task :=
  set_completed_at (Some (isoformat now))
    (set_status (py "completed")
       (set_output_data (Some result) (set_status (py "running") t))).


(** The titles of the tasks whose execution a piece of output announces. *)
Definition started (out : list Line) : list pystr :=
  omap (λ l, match l with task_started t => Some t | _ => None end) out.

(** The titles of the tasks that a list of positions refers to. *)
Definition titles_at (ts : list Task) (positions : list nat) : list pystr :=
  omap (λ i, title <$> ts !! i) positions.

(** The order that the description of workflows gives to the tasks of a
    workflow: the one of its list of task ids, each id standing for the
    tasks that carry it.  To be compared with [select], which is what the
    code does. *)
Definition in_task_id_list_order (ts : list Task) (task_ids : list pystr) : list Task :=
  flat_map (λ x, filter (λ t, id t = x) ts) task_ids.

(** [record[key]] on a parsed or dumped record. *)
Fixpoint dict_item (d : dict) (key : pystr) : option PyVal :=
  match d with
  | [] => None
  | (k, v) :: rest => if bool_decide (k = key) then Some v else dict_item rest key
  end.

Definition item (record : PyVal) (key : pystr) : option PyVal :=
  match record with
  | VDict d => dict_item d key
  | _ => None
  end.

(** Values that JSON has a form for: the encoder writes them as they are. *)
Fixpoint native (v : PyVal) : bool :=
  match v with
  | VNone | VBool _ | VInt _ | VFloat _ | VStr _ => true
  | VList l => forallb native l
  | VDict d => forallb (λ kv, native kv.2) d
  | VEnum _ | VObj _ _ => false
  end.

(** Writing a value to a file and parsing the file back. *)
Definition reload (v : PyVal) : PyVal := json_load (json_dump v).
Arguments reload : simpl never.

(** The task ids that the calls of a session returned. *)
Definition returned_ids (rs : list (Result Returned)) : list pystr :=
  omap (λ r, match r with Ok (returned_id x) => Some x | _ => None end) rs.

(** The fields of a task that nothing assigns after construction. *)
Definition same_task (t t' : Task) : Prop :=
  id t' = id t ∧ type t' = type t ∧ title t' = title t
  ∧ created_at t' = created_at t ∧ input_data t' = input_data t.

(** The shape of the id that [add_task] gives to the task it puts at
    position [pos]. *)
Definition task_id_at (pos : nat) (x : pystr) : Prop :=
  ∃ hms, length hms = 6 ∧ x = py "task_" ++ py (pretty pos) ++ py "_" ++ hms.

(** A task of a builder whose clock has been read [clock] times: it was
    created at one of these readings, and if it is completed it has a
    non-empty output and was completed at a later reading. *)
Definition settled (env : Env) (clock : nat) (t : Task) : Prop :=
  ∃ j, j < clock
       ∧ created_at t = isoformat (now_at env j)
       ∧ (status t = py "completed" →
          ∃ d k, output_data t = Some d ∧ d ≠ [] ∧ j < k
                 ∧ completed_at t = Some (isoformat (now_at env k))).

(** A clock whose later readings are never earlier datetimes. *)
Definition clock_never_goes_back (env : Env) : Prop :=
  ∀ j k, j ≤ k → datetime_le (now_at env j) (now_at env k) = true.

(** [a <= b] on two [str]: code point by code point. *)
Fixpoint str_le (a b : pystr) : bool :=
  match a, b with
  | [], _ => true
  | _ :: _, [] => false
  | x :: a', y :: b' => (x <? y)%N || ((x =? y)%N && str_le a' b')
  end.

(** The ranges that the fields of a [datetime] are in. *)
Definition valid_datetime (d : Datetime) : Prop :=
  year d < 10 ^ 4 ∧ month d < 10 ^ 2 ∧ day d < 10 ^ 2 ∧ hour d < 10 ^ 2
  ∧ minute d < 10 ^ 2 ∧ second d < 10 ^ 2 ∧ microsecond d < 10 ^ 6.

(** Ids that record the position at which their task was added. *)
Definition positional (ids : list pystr) : Prop :=
  ∀ i x, ids !! i = Some x → task_id_at i x.

(** A builder all of whose tasks are settled. *)
Definition healthy (env : Env) (b : Builder) : Prop :=
  Forall (settled env (clock_reads (world b))) (tasks b).

(** *** Concrete inputs used to exercise the statements *)

Definition noon : Datetime :=
  {| year := 2024; month := 5; day := 17; hour := 12; minute := 0; second := 7;
     microsecond := 0 |}.

(** A backend stub that always answers "one two", a frozen clock, no
    data files, and a writable results directory. *)
Definition stub_env : Env :=
  {| now_at := λ _, noon;
     acreate := λ _ _, Ok (py "one two");
     path_exists := λ _ _, false;
     read_table := λ _ _, Raise (ValueError msg_data_file_missing);
     open_for_writing := λ _ _, None;
     write_error := λ _ _, None;
     surrogate_position := λ _, [] |}.

(** The same, but the results directory cannot be written to. *)
Definition read_only_env : Env :=
  {| now_at := λ _, noon;
     acreate := λ _ _, Ok (py "one two");
     path_exists := λ _ _, false;
     read_table := λ _ _, Raise (ValueError msg_data_file_missing);
     open_for_writing := λ _ _, Some {| exc_class := py "PermissionError";
                                        exc_msg := py "[Errno 13] Permission denied" |};
     write_error := λ _ _, None;
     surrogate_position := λ _, [] |}.

(** A pending summarization task over [text], as [add_task] builds it. *)
Definition summarization_task (task_id task_title text : pystr) : Task :=
  {| id := task_id; type := TEXT_SUMMARIZATION; title := task_title;
     description := py "summarize"; input_data := [ (py "text", VStr text) ];
     output_data := None; status := py "pending";
     created_at := isoformat noon; completed_at := None |}.

(** A backend that answers the first call and fails on every later one;
    its error carries no message. *)
Definition flaky_env : Env :=
  {| now_at := λ _, noon;
     acreate := λ n _, match n with
                       | O => Ok (py "one two")
                       | S _ => Raise {| exc_class := py "TimeoutError"; exc_msg := [] |}
                       end;
     path_exists := λ _ _, false;
     read_table := λ _ _, Raise (ValueError msg_data_file_missing);
     open_for_writing := λ _ _, None;
     write_error := λ _ _, None;
     surrogate_position := λ _, [] |}.

(** A clock that is set back by one hour after its second reading, as
    local time is at the end of daylight saving time: [datetime.now()]
    is the naive local time. *)
Definition set_back_env : Env :=
  {| now_at := λ n,
       if Nat.ltb n 2
       then {| year := 2024; month := 10; day := 27; hour := 2; minute := 59;
               second := 59; microsecond := 0 |}
       else {| year := 2024; month := 10; day := 27; hour := 2; minute := 0;
               second := 1; microsecond := 0 |};
     acreate := λ _ _, Ok (py "one two");
     path_exists := λ _ _, false;
     read_table := λ _ _, Raise (ValueError msg_data_file_missing);
     open_for_writing := λ _ _, None;
     write_error := λ _ _, None;
     surrogate_position := λ _, [] |}.

(** A backend whose answer is a lone surrogate, which a JSON reply can
    carry as an escape.  The record of the task then cannot be written
    as UTF-8; the message of the codec is the one for that record. *)
Definition surrogate_env : Env :=
  {| now_at := λ _, noon;
     acreate := λ _ _, Ok [ 55296%N ];
     path_exists := λ _ _, false;
     read_table := λ _ _, Raise (ValueError msg_data_file_missing);
     open_for_writing := λ _ _, None;
     write_error := λ _ _, None;
     surrogate_position := λ _, py " '\ud800' in position 1" |}.

(** Two tasks A and B added in that order, and a workflow "w" that
    names B before A. *)
Definition two_tasks : Builder :=
  (session stub_env
     [ call_add_task TEXT_SUMMARIZATION (py "A") (py "first")
         [ (py "text", VStr (py "one two three")) ];
       call_add_task TEXT_SUMMARIZATION (py "B") (py "second")
         [ (py "text", VStr (py "four five six")) ];
       call_create_workflow (py "w") [ py "task_1_120007"; py "task_0_120007" ] ]
     (new_builder empty_world)).2.


(** One task, and a workflow "twice" that names its id two times. *)
Definition repeated : Builder :=
  (session stub_env
     [ call_add_task TEXT_SUMMARIZATION (py "A") (py "first")
         [ (py "text", VStr (py "one two three")) ];
       call_create_workflow (py "twice") [ py "task_0_120007"; py "task_0_120007" ] ]
     (new_builder empty_world)).2.

(** ** Fragments of the front ends

    The command line and the form front end are glue over click, rich
    and streamlit; what follows are the computations they make on the
    builder's records themselves. *)

(** The title column of [show_interactive_tasks]:
    [title[:30] + ("..." if len(title) > 30 else "")]. *)
Definition shown_title (task_title : pystr) : pystr :=
  take 30 task_title ++ (if Nat.ltb 30 (length task_title) then py "..." else []).

(** [counts.get(key, 0)] and [counts[key] = n] on an insertion-ordered
    mapping from statuses to numbers. *)
Fixpoint count_get (counts : list (pystr * nat)) (key : pystr) : nat :=
  match counts with
  | [] => 0
  | (k, n) :: rest => if bool_decide (k = key) then n else count_get rest key
  end.

Fixpoint count_set (counts : list (pystr * nat)) (key : pystr) (n : nat)
    : list (pystr * nat) :=
  match counts with
  | [] => [ (key, n) ]
  | (k, m) :: rest =>
      if bool_decide (k = key) then (k, n) :: rest
      else (k, m) :: count_set rest key n
  end.

(** The statistics of [manage_tasks_interface]: for each task in turn,
    [status_counts[status] = status_counts.get(status, 0) + 1]. *)
Fixpoint status_counts_from (counts : list (pystr * nat)) (ts : list Task)
    : list (pystr * nat) :=
  match ts with
  | [] => counts
  | task :: rest =>
      status_counts_from
        (count_set counts (status task) (count_get counts (status task) + 1)) rest
  end.

Definition status_counts (ts : list Task) : list (pystr * nat) :=
  status_counts_from [] ts.





(** ** Vocabulary of the further statements *)

(** A task that differs from another one at most in the three fields
    that [execute_task] assigns. *)
Definition same_identity (t t' : Task) : Prop :=
  id t' = id t ∧ type t' = type t ∧ title t' = title t
  ∧ description t' = description t ∧ input_data t' = input_data t
  ∧ created_at t' = created_at t.


(** The file that [export_workflow_results] writes for a workflow. *)
Definition export_file (workflow_name : pystr) : pystr :=
  results_dir (workflow_name ++ py "_results.json").

(** The file that [_save_results] writes for a task. *)
Definition result_file (t : Task) : pystr :=
  results_dir (id t ++ py "_" ++ value (type t) ++ py ".json").

(** How many of the calls are calls of [add_task]. *)
Fixpoint add_task_calls (calls : list Call) : nat :=
  match calls with
  | [] => 0
  | call_add_task _ _ _ _ :: rest => S (add_task_calls rest)
  | _ :: rest => add_task_calls rest
  end.

(** * Properties *)

(** ** Text *)

Lemma split_from_spaces (s : pystr) :
  forallb is_space s = true → split_from [] s = [].
Proof.
  induction s as [|c s IH]; simpl; [done|].
  intros [Hc Hs]%andb_prop. rewrite Hc. auto.
Qed.

Lemma split_spaces (s : pystr) : forallb is_space s = true → split s = [].
Proof. apply split_from_spaces. Qed.

Lemma split_from_run (cur s : pystr) :
  cur ≠ [] → split_from cur s ≠ [].
Proof.
  revert cur. induction s as [|c s IH]; intros cur Hcur; simpl.
  - by destruct cur.
  - destruct (is_space c).
    + by destruct cur.
    + by apply IH.
Qed.

(** A text has no word exactly when all of it is white space. *)
Lemma split_nil_iff (s : pystr) : split s = [] ↔ forallb is_space s = true.
Proof.
  split; [|apply split_spaces].
  unfold split. induction s as [|c s IH]; simpl; [done|].
  destruct (is_space c) eqn:Hc; simpl; [done|].
  intros H. by apply split_from_run in H.
Qed.




Lemma py_inj : Inj (=) (=) py.
Proof.
  assert (Inj (=) (=) (λ a, Ascii.N_of_ascii a)) as Hinj.
  { intros a1 a2 Ha.
    rewrite <- (Ascii.ascii_N_embedding a1), <- (Ascii.ascii_N_embedding a2).
    by rewrite Ha. }
  intros s1 s2 H. unfold py in H.
  apply (inj (fmap (λ a, Ascii.N_of_ascii a))) in H.
  rewrite <- (String.string_of_list_ascii_of_string s1),
    <- (String.string_of_list_ascii_of_string s2). by rewrite H.
Qed.

(** ** [execute_task] *)

Section ExecuteTask.

Variable env : Env.

(** The two paths of [execute_task], written out. *)
Lemma execute_task_on_eq (t : Task) (w : World) :
  execute_task_on env t w =
    match dispatch env (type t) (input_data t) (say (task_started (title t)) w) with
    | (Raise e, w2) =>
        (Raise e, failed_with e (set_status (py "running") t),
         say (task_failed (title t) (exc_msg e)) w2)
    | (Ok result, w2) =>
        let t3 := completed_with result (now_at env (clock_reads w2)) t in
        match _save_results env t3 (tick_clock w2) with
        | (Raise e, w3) =>
            (Raise e, failed_with e t3, say (task_failed (title t) (exc_msg e)) w3)
        | (Ok _, w3) => (Ok result, t3, say (task_completed (title t)) w3)
        end
    end.
Proof.
  unfold execute_task_on, execute_task_body, try_except, bind, on_task,
    on_world, zoom, modify, gets, print, datetime_now, ret, raise; simpl.
  fold (say (task_started (title t)) w).
  destruct (dispatch env (type t) (input_data t) (say (task_started (title t)) w))
    as [[result|e] w2]; simpl; [|done].
  unfold completed_with.
  by destruct (_save_results env _ (tick_clock w2)) as [[[]|e] w3].
Qed.

(** [_summarize_text] once the bound is computed and the backend has
    answered: the three cases of the text. *)
Lemma summarize_text_str (input : dict) (w : World) (s summary : pystr) (bound : PyVal) :
  get input (py "text") (VStr []) = VStr s →
  times2 (get input (py "max_length") (VInt 150)) = Ok bound →
  acreate env (backend_calls w) (summarization_request input bound) = Ok summary →
  _summarize_text env input w =
    (match s, length (split s) with
     | [], _ =>
         Ok [ (py "original_length", VInt 0); (py "summary", VStr summary);
              (py "summary_length", len (split summary));
              (py "compression_ratio", VInt 0) ]
     | _ :: _, O => Raise ZeroDivisionError
     | _ :: _, S n =>
         Ok [ (py "original_length", len (split s)); (py "summary", VStr summary);
              (py "summary_length", len (split summary));
              (py "compression_ratio",
                VFloat (Z.of_nat (length (split summary)) # Pos.of_nat (length (split s)))) ]
     end, tick_backend w).
Proof.
  intros Htext Hbound Hreply.
  unfold _summarize_text, bind, of_result, chat_completion, ret.
  rewrite Hbound, Hreply, Htext. simpl.
  destruct s as [|c s]; simpl; [done|].
  unfold true_div. destruct (length (split (c :: s))) eqn:Hlen; [done|].
  unfold len. by rewrite Hlen.
Qed.






(** The except clause at work: a call that raises leaves the task failed,
    with the message of the error as its output. *)
Lemma execute_task_on_raise (t t' : Task) (w w' : World) (e : Exc) :
  execute_task_on env t w = (Raise e, t', w') →
  status t' = py "failed"
  ∧ output_data t' = Some [ (py "error", VStr (exc_msg e)) ].
Proof.
  rewrite execute_task_on_eq.
  destruct (dispatch env _ _ _) as [[result|e0] w2].
  - cbv zeta. destruct (_save_results env _ _) as [[[]|e0] w3]; [done|].
    by intros [= <- <- <-].
  - by intros [= <- <- <-].
Qed.



(** What C6 says holds on the two sides of the gap: an empty text gives
    the ratio 0, a text with at least one word gives the quotient. *)
Lemma summarize_empty_text (input : dict) (w : World) (summary : pystr) (bound : PyVal) :
  get input (py "text") (VStr []) = VStr [] →
  times2 (get input (py "max_length") (VInt 150)) = Ok bound →
  acreate env (backend_calls w) (summarization_request input bound) = Ok summary →
  ∃ result, _summarize_text env input w = (Ok result, tick_backend w)
            ∧ get result (py "compression_ratio") VNone = VInt 0.
Proof.
  intros Htext Hbound Hreply.
  erewrite summarize_text_str by done. simpl. eauto.
Qed.

Lemma summarize_ratio_is_quotient (input : dict) (w : World) (s summary : pystr)
    (bound : PyVal) :
  get input (py "text") (VStr []) = VStr s →
  split s ≠ [] →
  times2 (get input (py "max_length") (VInt 150)) = Ok bound →
  acreate env (backend_calls w) (summarization_request input bound) = Ok summary →
  ∃ result, _summarize_text env input w = (Ok result, tick_backend w)
            ∧ get result (py "summary_length") VNone = len (split summary)
            ∧ get result (py "original_length") VNone = len (split s)
            ∧ get result (py "compression_ratio") VNone
              = VFloat (Z.of_nat (length (split summary))
                        # Pos.of_nat (length (split s))).
Proof.
  intros Htext Hwords Hbound Hreply.
  erewrite summarize_text_str by done.
  destruct s as [|c s]; [done|].
  destruct (length (split (c :: s))) eqn:Hlen.
  { by apply length_zero_iff_nil in Hlen. }
  rewrite <- Hlen. eauto.
Qed.

End ExecuteTask.

(** ** What a call leaves alone *)

Section Frame.

Variable env : Env.

(** A handler neither prints, nor reads the clock, nor writes a file,
    and what it returns is never the empty mapping. *)
Lemma dispatch_frame (ty : TaskType) (input : dict) (w w2 : World) (r : Result dict) :
  dispatch env ty input w = (r, w2) →
  stdout w2 = stdout w ∧ clock_reads w2 = clock_reads w ∧ files w2 = files w
  ∧ (∀ result, r = Ok result → result ≠ []).
Proof.
  destruct ty; simpl;
    unfold _generate_content, _analyze_data, _summarize_text, _generate_email,
      _translate_text, _generate_code, bind, of_result, chat_completion,
      Path_exists, ret, raise;
    intros H; repeat (case_match; simplify_eq/=); by repeat split; intros ? [= <-].
Qed.

(** The three ways [write_json] ends: [open] fails and nothing has
    changed; the file was opened and the writing failed, which leaves it
    unfinished; or the whole document is there. *)
Lemma write_json_outcome (path : pystr) (doc : PyVal) (w w2 : World) (r : Result unit) :
  write_json env path doc w = (r, w2) →
  stdout w2 = stdout w ∧ clock_reads w2 = clock_reads w
  ∧ backend_calls w2 = backend_calls w
  ∧ match r with
    | Ok _ =>
        open_for_writing env (fs_accesses w) path = None
        ∧ write_error env (fs_accesses w) path = None
        ∧ encodable (json_dump doc) = true
        ∧ files w2 = <[path := document (json_dump doc)]> (files w)
    | Raise e =>
        (open_for_writing env (fs_accesses w) path = Some e ∧ files w2 = files w)
        ∨ (open_for_writing env (fs_accesses w) path = None
           ∧ (write_error env (fs_accesses w) path = None →
              encodable (json_dump doc) = false)
           ∧ files w2 = <[path := unfinished]> (files w))
    end.
Proof.
  unfold write_json.
  destruct (open_for_writing env _ _) as [e1|] eqn:Hopen.
  { intros [= <- <-]. repeat split. by left. }
  destruct (write_error env _ _) as [e1|] eqn:Hwrite.
  { intros [= <- <-]. repeat split. right. repeat split. done. }
  cbv zeta. destruct (encodable _) eqn:Htext.
  - intros [= <- <-]. by repeat split.
  - intros [= <- <-]. repeat split. right. by repeat split.
Qed.

Lemma save_results_frame (t : Task) (w w2 : World) (r : Result unit) :
  _save_results env t w = (r, w2) →
  stdout w2 = stdout w ∧ clock_reads w2 = clock_reads w.
Proof.
  unfold _save_results, write_json. intros H.
  by repeat (case_match; simplify_eq/=).
Qed.

(** [execute_task] on a task object: what it keeps of the task and what
    it prints. *)
Lemma execute_task_on_frame (t t' : Task) (w w' : World) (r : Result dict) :
  execute_task_on env t w = (r, t', w') →
  id t' = id t ∧ type t' = type t ∧ title t' = title t
  ∧ created_at t' = created_at t ∧ input_data t' = input_data t
  ∧ clock_reads w ≤ clock_reads w'
  ∧ ∃ last, stdout w' = stdout w ++ [task_started (title t); last]
            ∧ started [last] = [].
Proof.
  rewrite execute_task_on_eq.
  destruct (dispatch env _ _ _) as [[result|e] w2] eqn:Hd;
    apply dispatch_frame in Hd as (Hout & Hclock & _ & _); simpl in *.
  - destruct (_save_results env _ _) as [[[]|e] w3] eqn:Hs;
      apply save_results_frame in Hs as [Hout3 Hclock3]; simpl in *;
      intros [= <- <- <-]; simpl; rewrite Hout3, Hout, Hclock3, Hclock;
      (repeat split; [lia|]); eexists; by rewrite <- app_assoc.
  - intros [= <- <- <-]; simpl. rewrite Hout, Hclock.
    (repeat split; [lia|]); eexists; by rewrite <- app_assoc.
Qed.

End Frame.

(** ** Selecting the tasks of a workflow *)


Lemma select_from_lookups (pre ts : list Task) (task_ids : list pystr) :
  (λ i, (pre ++ ts) !! i) <$> select_from (length pre) ts task_ids
  = Some <$> filter (λ t, id t ∈ task_ids) ts.
Proof.
  revert pre. induction ts as [|t ts IH]; intros pre; simpl; [done|].
  specialize (IH (pre ++ [t])).
  rewrite length_app, Nat.add_1_r, <- app_assoc in IH. simpl in IH.
  rewrite filter_cons. case_bool_decide as Hin.
  - rewrite decide_True by done. rewrite !fmap_cons, IH.
    by rewrite list_lookup_middle.
  - by rewrite decide_False.
Qed.

(** The selected positions refer, in order, to the tasks of [self.tasks]
    whose id is in the list. *)
Lemma select_lookups (ts : list Task) (task_ids : list pystr) :
  (λ i, ts !! i) <$> select ts task_ids = Some <$> filter (λ t, id t ∈ task_ids) ts.
Proof. apply (select_from_lookups []). Qed.

Lemma select_length (ts : list Task) (task_ids : list pystr) :
  length (select ts task_ids) = length (filter (λ t, id t ∈ task_ids) ts).
Proof.
  rewrite <- (length_fmap (λ i, ts !! i)), select_lookups. apply length_fmap.
Qed.


Lemma select_from_elem (pos : nat) (ts : list Task) (task_ids : list pystr) (i : nat) :
  i ∈ select_from pos ts task_ids
  ↔ pos ≤ i ∧ ∃ t, ts !! (i - pos) = Some t ∧ id t ∈ task_ids.
Proof.
  revert pos. induction ts as [|t ts IH]; intros pos; simpl.
  - split; [by intros ?%elem_of_nil|]. by intros (_ & ? & ? & _).
  - case_bool_decide as Hin; rewrite ?elem_of_cons, IH.
    + split.
      * intros [->|(Hle & t' & Hl & Hid)].
        { rewrite Nat.sub_diag. eauto. }
        split; [lia|]. exists t'. split; [|done].
        by replace (i - pos) with (S (i - S pos)) by lia.
      * intros (Hle & t' & Hl & Hid).
        destruct (decide (i = pos)) as [->|Hne]; [by left|right].
        split; [lia|]. exists t'. split; [|done].
        by replace (i - pos) with (S (i - S pos)) in Hl by lia.
    + split.
      * intros (Hle & t' & Hl & Hid). split; [lia|]. exists t'. split; [|done].
        by replace (i - pos) with (S (i - S pos)) by lia.
      * intros (Hle & t' & Hl & Hid).
        destruct (decide (i = pos)) as [->|Hne].
        { rewrite Nat.sub_diag in Hl. by simplify_eq/=. }
        split; [lia|]. exists t'. split; [|done].
        by replace (i - pos) with (S (i - S pos)) in Hl by lia.
Qed.

(** A position is selected exactly when the task there has its id in the
    list, however often the list names it. *)
Lemma select_elem (ts : list Task) (task_ids : list pystr) (i : nat) :
  i ∈ select ts task_ids ↔ ∃ t, ts !! i = Some t ∧ id t ∈ task_ids.
Proof.
  unfold select. rewrite select_from_elem, Nat.sub_0_r.
  split; [by intros [_ ?]|]. intros ?; split; [lia|done].
Qed.

Lemma select_from_NoDup (pos : nat) (ts : list Task) (task_ids : list pystr) :
  NoDup (select_from pos ts task_ids).
Proof.
  revert pos. induction ts as [|t ts IH]; intros pos; simpl; [constructor|].
  case_bool_decide; [|done]. constructor; [|done].
  rewrite select_from_elem. lia.
Qed.

Lemma select_NoDup (ts : list Task) (task_ids : list pystr) :
  NoDup (select ts task_ids).
Proof. apply select_from_NoDup. Qed.


(** ** Workflows *)

Section Workflows.

Variable env : Env.

Lemma same_task_refl (t : Task) : same_task t t.
Proof. by repeat split. Qed.

Lemma same_task_trans (t1 t2 t3 : Task) :
  same_task t1 t2 → same_task t2 t3 → same_task t1 t3.
Proof. unfold same_task. intros (?&?&?&?&?) (?&?&?&?&?). repeat split; congruence. Qed.

Lemma same_tasks_refl (ts : list Task) : Forall2 same_task ts ts.
Proof. apply Forall_Forall2_diag, Forall_forall. intros. apply same_task_refl. Qed.

Lemma same_tasks_trans (ts1 ts2 ts3 : list Task) :
  Forall2 same_task ts1 ts2 → Forall2 same_task ts2 ts3 → Forall2 same_task ts1 ts3.
Proof. apply Forall2_trans. intros ???. apply same_task_trans. Qed.

Lemma same_tasks_titles (ts ts' : list Task) (positions : list nat) :
  Forall2 same_task ts ts' → titles_at ts' positions = titles_at ts positions.
Proof.
  intros Hsame. unfold titles_at.
  apply list_omap_ext, Forall_Forall2_diag, Forall_forall. intros i _.
  destruct (ts !! i) as [t|] eqn:Ht.
  - destruct (Forall2_lookup_l _ _ _ _ _ Hsame Ht) as (t' & Ht' & (_ & _ & Htitle & _)).
    rewrite Ht'. simpl. by rewrite Htitle.
  - apply Forall2_length in Hsame. apply lookup_ge_None in Ht.
    rewrite (proj2 (lookup_ge_None ts' i)) by lia. done.
Qed.

Lemma started_app (l k : list Line) : started (l ++ k) = started l ++ started k.
Proof. apply omap_app. Qed.

Lemma titles_at_cons (ts : list Task) (i : nat) (t : Task) (l : list nat) :
  ts !! i = Some t → titles_at ts (i :: l) = title t :: titles_at ts l.
Proof. intros Ht. unfold titles_at. simpl. by rewrite Ht. Qed.

(** The two lines that one [execute_task] prints announce one task. *)
Lemma started_pair (t : pystr) (last : Line) :
  started [last] = [] → started [task_started t; last] = [t].
Proof. by destruct last. Qed.

(** [execute_task] on a position of [self.tasks]: it runs on the task
    there and stores the outcome at the same position. *)
Lemma execute_task_at (i : nat) (b b' : Builder) (r : Result dict) (t : Task) :
  tasks b !! i = Some t →
  execute_task env i b = (r, b') →
  ∃ t', execute_task_on env t (world b) = (r, t', world b')
        ∧ tasks b' = <[i := t']> (tasks b)
        ∧ workflows b' = workflows b.
Proof.
  intros Ht. unfold execute_task. rewrite Ht.
  destruct (execute_task_on env t (world b)) as [[r0 t'] w'].
  intros [= <- <-]. by exists t'.
Qed.

(** The loop of [execute_workflow] over distinct positions of
    [self.tasks]: it attempts a prefix of them, in order. *)
Lemma for_each_task_spec (todo : list nat) :
  ∀ (acc : list dict) (b b' : Builder) (r : Result (list dict)),
    NoDup todo →
    (∀ i, i ∈ todo → i < length (tasks b)) →
    for_each_task env todo acc b = (r, b') →
    ∃ n lines,
      n ≤ length todo
      ∧ stdout (world b') = stdout (world b) ++ lines
      ∧ started lines = titles_at (tasks b) (take n todo)
      ∧ workflows b' = workflows b
      ∧ Forall2 same_task (tasks b) (tasks b')
      ∧ (∀ j, j ∉ take n todo → tasks b' !! j = tasks b !! j)
      ∧ clock_reads (world b) ≤ clock_reads (world b')
      ∧ match r with
        | Ok results => n = length todo ∧ length results = length acc + n
        | Raise e =>
            ∃ i t', 0 < n ∧ todo !! (pred n) = Some i
                    ∧ tasks b' !! i = Some t'
                    ∧ status t' = py "failed"
                    ∧ output_data t' = Some [ (py "error", VStr (exc_msg e)) ]
        end.
Proof.
  induction todo as [|i rest IH]; intros acc b b' r Hnodup Hrange; simpl.
  - intros [= <- <-]. exists 0, []. rewrite app_nil_r.
    repeat split; auto using same_tasks_refl.
  - apply NoDup_cons in Hnodup as [Hi Hnodup].
    destruct (lookup_lt_is_Some_2 (tasks b) i) as [t Ht].
    { apply Hrange. by left. }
    unfold bind at 1.
    destruct (execute_task env i b) as [[result|e] b1] eqn:Hexec;
      destruct (execute_task_at _ _ _ _ _ Ht Hexec) as (t' & Hon & Htasks & Hwf);
      destruct (execute_task_on_frame _ _ _ _ _ _ Hon)
        as (Hid & Hty & Htitle & Hcreated & Hinput & Hclock & last & Hout & Hlast).
    + intros Hloop.
      assert (Forall2 same_task (tasks b) (tasks b1)) as Hsame1.
      { rewrite Htasks, <- (list_insert_id (tasks b) i t) at 1 by done.
        apply Forall2_insert; [apply same_tasks_refl|by repeat split]. }
      apply IH in Hloop as (n & lines & Hn & Hlines & Hstarted & Hwf' & Hsame
                            & Hkeep & Hclock' & Hr); [|done|].
      2:{ intros j Hj. rewrite Htasks, length_insert. apply Hrange. by right. }
      exists (S n), ([task_started (title t); last] ++ lines).
      split; [simpl; lia|].
      split; [by rewrite Hlines, Hout, <- app_assoc|].
      split.
      { rewrite started_app, (started_pair _ _ Hlast), Hstarted.
        rewrite (same_tasks_titles _ _ _ Hsame1).
        change (take (S n) (i :: rest)) with (i :: take n rest).
        by rewrite (titles_at_cons _ _ _ _ Ht). }
      split; [congruence|].
      split; [by eapply same_tasks_trans|].
      split.
      { intros j Hj. simpl in Hj. apply not_elem_of_cons in Hj as [Hne Hj].
        rewrite Hkeep, Htasks by done. by apply list_lookup_insert_ne. }
      split; [lia|].
      destruct r as [results|e].
      * destruct Hr as [-> Hlen]. split; [done|].
        rewrite Hlen, length_app. simpl. lia.
      * destruct Hr as (i' & t'' & Hpos & Hi' & Ht'' & Hfailed & Herr).
        exists i', t''. repeat split; try done; [lia|].
        simpl. by destruct n; [lia|].
    + intros [= <- <-].
      destruct (execute_task_on_raise _ _ _ _ _ _ Hon) as [Hst Herr].
      exists 1, [task_started (title t); last].
      split; [simpl; lia|].
      split; [done|].
      split.
      { rewrite (started_pair _ _ Hlast).
        change (take 1 (i :: rest)) with (i :: take 0 rest).
        by rewrite take_0, (titles_at_cons _ _ _ _ Ht). }
      split; [done|].
      split.
      { rewrite Htasks, <- (list_insert_id (tasks b) i t) at 1 by done.
        apply Forall2_insert; [apply same_tasks_refl|by repeat split]. }
      split.
      { intros j Hj. simpl in Hj. rewrite take_0 in Hj.
        apply not_elem_of_cons in Hj as [Hne _].
        rewrite Htasks. by apply list_lookup_insert_ne. }
      split; [done|].
      exists i, t'. repeat split; try done; [lia|].
      rewrite Htasks. apply list_lookup_insert_eq. by eapply lookup_lt_Some.
Qed.


Lemma select_in_range (ts : list Task) (task_ids : list pystr) (i : nat) :
  i ∈ select ts task_ids → i < length ts.
Proof. intros (t & Ht & _)%select_elem. by eapply lookup_lt_Some. Qed.

(** [execute_workflow] of a registered name, step by step. *)
Lemma execute_workflow_eq (workflow_name : pystr) (task_ids : list pystr) (b : Builder) :
  workflows b !! workflow_name = Some task_ids →
  execute_workflow env workflow_name b =
    let todo := select (tasks b) task_ids in
    let b1 := set_world (say (workflow_task_count (length todo))
                           (say (workflow_started workflow_name) (world b))) b in
    match for_each_task env todo [] b1 with
    | (Ok results, b2) =>
        (Ok results, set_world (say (workflow_completed workflow_name) (world b2)) b2)
    | (Raise e, b2) => (Raise e, b2)
    end.
Proof.
  intros Hwf. unfold execute_workflow, bind, gets. simpl. rewrite Hwf.
  unfold zoom, print, modify, ret. simpl.
  by destruct (for_each_task env _ _ _) as [[results|e] b2].
Qed.





End Workflows.

(** ** Exporting a workflow *)

(** A value that JSON has a form for comes back from a file as it went in. *)
Lemma reload_native (v : PyVal) : native v = true → reload v = v.
Proof.
  revert v. fix IH 1.
  intros [| | | | |l|d| |] H; try done.
  - unfold reload. simpl. f_equal. simpl in H.
    induction l as [|x l IHl]; [done|].
    simpl in H. apply andb_prop in H as [Hx Hl]. simpl.
    f_equal; [exact (IH x Hx)|exact (IHl Hl)].
  - unfold reload. simpl. f_equal. simpl in H.
    induction d as [|[k x] d IHd]; [done|].
    simpl in H. apply andb_prop in H as [Hx Hd]. simpl.
    f_equal; [f_equal; exact (IH x Hx)|exact (IHd Hd)].
Qed.

Lemma reload_native_dict (d : dict) :
  forallb (λ kv, native kv.2) d = true → reload (VDict d) = VDict d.
Proof. intros H. by apply reload_native. Qed.

Lemma reload_dict (d : dict) :
  reload (VDict d) = VDict (map (λ kv, (kv.1, reload kv.2)) d).
Proof. unfold reload. simpl. by rewrite map_map. Qed.

(** A task record read back from a file: the enum member has become the
    text of its [str()], every other field is as [asdict] gave it when
    the input and the output hold only values that JSON has a form for. *)
Lemma reload_asdict (t : Task) :
  forallb (λ kv, native kv.2) (input_data t) = true →
  (∀ d, output_data t = Some d → forallb (λ kv, native kv.2) d = true) →
  reload (asdict t)
  = VDict [ (py "id", VStr (id t));
            (py "type", VStr (str_TaskType (type t)));
            (py "title", VStr (title t));
            (py "description", VStr (description t));
            (py "input_data", VDict (input_data t));
            (py "output_data", optional VDict (output_data t));
            (py "status", VStr (status t));
            (py "created_at", VStr (created_at t));
            (py "completed_at", optional VStr (completed_at t)) ].
Proof.
  intros Hin Hout. unfold asdict. rewrite reload_dict. cbn [map fst snd].
  rewrite (reload_native_dict _ Hin).
  rewrite (reload_native (optional VDict (output_data t))),
    (reload_native (optional VStr (completed_at t))); [done| |].
  - by destruct (completed_at t).
  - destruct (output_data t) as [d|]; [|done]. simpl. by apply Hout.
Qed.

Lemma reload_asdict_item (t : Task) (key : pystr) :
  forallb (λ kv, native kv.2) (input_data t) = true →
  (∀ d, output_data t = Some d → forallb (λ kv, native kv.2) d = true) →
  key ≠ py "type" →
  item (reload (asdict t)) key = item (asdict t) key.
Proof.
  intros Hin Hout Hkey. rewrite (reload_asdict _ Hin Hout). simpl.
  case_bool_decide; [done|].
  rewrite !(bool_decide_false (py "type" = key)) by done. done.
Qed.

Section Exporting.

Variable env : Env.

Lemma list_tasks_eq (b : Builder) : list_tasks b = (Ok (asdict <$> tasks b), b).
Proof. done. Qed.

(** A format other than "json" leaves [filepath] unbound: nothing is
    written and the [return] raises. *)
Lemma export_other_format (workflow_name format : pystr) (task_ids : list pystr)
    (b : Builder) :
  workflows b !! workflow_name = Some task_ids →
  format ≠ py "json" →
  export_workflow_results env workflow_name format b
  = (Raise (UnboundLocalError (py "filepath")), set_world (tick_clock (world b)) b).
Proof.
  intros Hwf Hformat.
  unfold export_workflow_results, bind, gets. simpl. rewrite Hwf.
  unfold zoom, datetime_now, ret, raise. simpl.
  by rewrite bool_decide_false.
Qed.

(** The timestamps and the literal keys hold no surrogate. *)
Lemma utf8_encodable_app (a b : pystr) :
  utf8_encodable (a ++ b) = utf8_encodable a && utf8_encodable b.
Proof. apply forallb_app. Qed.

Lemma zero_padded_encodable (width n : nat) : utf8_encodable (zero_padded width n) = true.
Proof.
  revert n. induction width as [|width IH]; intros n; [done|].
  simpl. rewrite utf8_encodable_app, IH. simpl.
  unfold surrogate, digit.
  pose proof (Nat.mod_upper_bound n 10).
  replace (55296 <=? 48 + N.of_nat (n mod 10))%N with false; [done|].
  symmetry. apply N.leb_gt. lia.
Qed.

Lemma isoformat_encodable (d : Datetime) : utf8_encodable (isoformat d) = true.
Proof.
  unfold isoformat.
  rewrite !utf8_encodable_app, !zero_padded_encodable.
  destruct (Nat.eqb _ _); [done|].
  by rewrite utf8_encodable_app, zero_padded_encodable.
Qed.

(** C2, as amended.  Exporting a registered workflow as "json" keeps the
    tasks as they are.  When the file can be opened and the text written
    to its end (no error of the device, no lone surrogate in the name of
    the workflow or in the records), the call returns the path
    [str(Path("results") / "<name>_results.json")] and leaves there a
    document whose [tasks] array holds the records of the tasks of
    [self.tasks] whose id is in the workflow's list, in the order of
    [self.tasks], which is the order in which [list_tasks] reports them.
    Read back, a record agrees with the one [list_tasks] reports on every
    field other than [type], provided its input and output hold only
    values that JSON has a form for.  When the call raises, either [open]
    failed and no file has changed, or the file was opened, and so
    emptied, and is left unfinished. *)
Theorem export_workflow_results_json (workflow_name : pystr) (task_ids : list pystr)
    (b : Builder) :
  workflows b !! workflow_name = Some task_ids →
  ∃ r b',
    export_workflow_results env workflow_name (py "json") b = (r, b')
    ∧ tasks b' = tasks b
    ∧ (open_for_writing env (fs_accesses (world b)) (export_file workflow_name) = None →
       write_error env (fs_accesses (world b)) (export_file workflow_name) = None →
       utf8_encodable workflow_name = true →
       Forall (λ t, encodable (json_dump (asdict t)) = true)
         (filter (λ t, id t ∈ task_ids) (tasks b)) →
       r = Ok (export_file workflow_name)
       ∧ ∃ doc,
           files (world b') !! export_file workflow_name = Some (document doc)
           ∧ item (json_load doc) (py "tasks")
             = Some (VList (reload <$> (asdict <$> filter (λ t, id t ∈ task_ids)
                                                     (tasks b)))))
    ∧ (∀ e, r = Raise e →
         (open_for_writing env (fs_accesses (world b)) (export_file workflow_name)
            = Some e
          ∧ files (world b') = files (world b))
         ∨ (open_for_writing env (fs_accesses (world b)) (export_file workflow_name)
              = None
            ∧ files (world b')
              = <[export_file workflow_name := unfinished]> (files (world b))))
    ∧ list_tasks b = (Ok (asdict <$> tasks b), b)
    ∧ ∀ t key,
        forallb (λ kv, native kv.2) (input_data t) = true →
        (∀ d, output_data t = Some d → forallb (λ kv, native kv.2) d = true) →
        key ≠ py "type" →
        item (reload (asdict t)) key = item (asdict t) key.
Proof.
  intros Hwf.
  unfold export_workflow_results, bind, gets. simpl. rewrite Hwf.
  unfold zoom, datetime_now, ret. simpl.
  fold (export_file workflow_name).
  destruct (write_json env _ _ _) as [r w2] eqn:Hw.
  apply write_json_outcome in Hw as (_ & _ & _ & Hr).
  cbn [tick_clock fs_accesses files] in Hr.
  assert (∀ t key,
            forallb (λ kv, native kv.2) (input_data t) = true →
            (∀ d, output_data t = Some d → forallb (λ kv, native kv.2) d = true) →
            key ≠ py "type" →
            item (reload (asdict t)) key = item (asdict t) key) as Hback.
  { intros t key. apply reload_asdict_item. }
  destruct r as [[]|e].
  - destruct Hr as (_ & _ & _ & Hfiles).
    eexists _, _. split; [done|]. split; [done|].
    split; [|done]. intros _ _ _ _. split; [done|].
    eexists. simpl. rewrite Hfiles. split; [apply lookup_insert_eq|].
    simpl. do 2 f_equal. rewrite !map_map.
    change (map (λ x, json_load (json_dump x))) with (fmap (M:=list) reload).
    done.
  - eexists _, _. split; [done|]. split; [done|].
    split; [|split; [|done]].
    + intros Hopen Hwrite Hname Hrecords.
      destruct Hr as [[Hr _]|(_ & Hr & _)]; [congruence|].
      specialize (Hr Hwrite). revert Hr.
      cbn [encodable forallb fst snd map json_dump].
      rewrite Hname, isoformat_encodable.
      replace (forallb encodable _) with true; [done|].
      symmetry. apply forallb_forall. intros j [v [<- Hv]]%in_map_iff.
      apply list_elem_of_In, list_elem_of_fmap in Hv as (t & -> & Ht).
      rewrite Forall_forall in Hrecords. by apply Hrecords.
    + intros ? [= <-]. simpl.
      destruct Hr as [[Hr ?]|(Hr & _ & ?)]; [by left|by right].
Qed.

End Exporting.

(** ** Timestamps as text *)

Lemma str_le_refl (a : pystr) : str_le a a = true.
Proof.
  induction a as [|x a IH]; simpl; [done|].
  by rewrite N.eqb_refl, IH, orb_true_r.
Qed.

Lemma str_le_prefix (p a b : pystr) : str_le (p ++ a) (p ++ b) = str_le a b.
Proof.
  induction p as [|x p IH]; simpl; [done|].
  by rewrite N.ltb_irrefl, N.eqb_refl, IH.
Qed.

Lemma digit_lt (n m : nat) :
  n mod 10 < m mod 10 → (digit n <? digit m)%N = true.
Proof. intros H. unfold digit. apply N.ltb_lt. lia. Qed.

(** Zero-padded numbers of the same width compare as numbers, whatever
    follows them. *)
Lemma zero_padded_lt (width : nat) :
  ∀ (n m : nat) (a b : pystr),
    n < m → m < 10 ^ width →
    str_le (zero_padded width n ++ a) (zero_padded width m ++ b) = true.
Proof.
  induction width as [|w IH]; intros n m a b Hnm Hm.
  - simpl in Hm. lia.
  - assert (∀ x, zero_padded (S w) x = zero_padded w (x / 10) ++ [digit x])
      as Hstep by done.
    rewrite !Hstep, <- !app_assoc. rewrite Nat.pow_succ_r' in Hm.
    destruct (decide (n / 10 < m / 10)) as [Hlt|Hge].
    + apply IH; [done|]. by apply Nat.Div0.div_lt_upper_bound.
    + assert (n / 10 = m / 10) as Heq.
      { pose proof (Nat.Div0.div_le_mono n m 10). lia. }
      rewrite Heq, str_le_prefix. cbn [app str_le].
      rewrite digit_lt; [done|].
      pose proof (Nat.div_mod_eq n 10). pose proof (Nat.div_mod_eq m 10). lia.
Qed.

Lemma zero_padded_le (width n m : nat) (a b : pystr) :
  n ≤ m → m < 10 ^ width →
  (n = m → str_le a b = true) →
  str_le (zero_padded width n ++ a) (zero_padded width m ++ b) = true.
Proof.
  intros Hnm Hm Hrest. destruct (decide (n = m)) as [->|Hne].
  - rewrite str_le_prefix. by apply Hrest.
  - apply zero_padded_lt; [lia|done].
Qed.

Lemma lex_le_cons (x y : nat) (a b : list nat) :
  lex_le (x :: a) (y :: b) = true → x ≤ y ∧ (x = y → lex_le a b = true).
Proof.
  simpl. intros [Hlt%Nat.ltb_lt|[Heq%Nat.eqb_eq Hrest]%andb_prop]%orb_prop.
  - split; [lia|]. intros ->. lia.
  - by subst.
Qed.

(** The ISO text of valid datetimes is ordered as the datetimes are: the
    comparison of two stored timestamps is the comparison of the instants
    they were read at. *)
Lemma isoformat_le (d1 d2 : Datetime) :
  valid_datetime d2 →
  datetime_le d1 d2 = true →
  str_le (isoformat d1) (isoformat d2) = true.
Proof.
  intros (Hy & Hmo & Hd & Hh & Hmi & Hs & Hus). unfold datetime_le, fields.
  intros (Hy' & H)%lex_le_cons. unfold isoformat.
  apply zero_padded_le; [done|done|]. intros Ey. specialize (H Ey).
  apply lex_le_cons in H as [Hmo' H]. rewrite str_le_prefix.
  apply zero_padded_le; [done|done|]. intros Emo. specialize (H Emo).
  apply lex_le_cons in H as [Hd' H]. rewrite str_le_prefix.
  apply zero_padded_le; [done|done|]. intros Ed. specialize (H Ed).
  apply lex_le_cons in H as [Hh' H]. rewrite str_le_prefix.
  apply zero_padded_le; [done|done|]. intros Eh. specialize (H Eh).
  apply lex_le_cons in H as [Hmi' H]. rewrite str_le_prefix.
  apply zero_padded_le; [done|done|]. intros Emi. specialize (H Emi).
  apply lex_le_cons in H as [Hs' H]. rewrite str_le_prefix.
  apply zero_padded_le; [done|done|]. intros Es. specialize (H Es).
  apply lex_le_cons in H as [Hus' _].
  destruct (Nat.eqb_spec (microsecond d1) 0) as [E1|E1]; [done|].
  destruct (Nat.eqb_spec (microsecond d2) 0) as [E2|E2]; [lia|].
  rewrite str_le_prefix. rewrite <- (app_nil_r (zero_padded 6 (microsecond d1))),
    <- (app_nil_r (zero_padded 6 (microsecond d2))).
  by apply zero_padded_le.
Qed.

(** ** Sessions *)

Lemma zero_padded_length (width n : nat) : length (zero_padded width n) = width.
Proof.
  revert n. induction width as [|w IH]; intros n; simpl; [done|].
  rewrite length_app, IH. simpl. lia.
Qed.

Lemma strftime_HMS_length (d : Datetime) : length (strftime_HMS d) = 6.
Proof. unfold strftime_HMS. by rewrite !length_app, !zero_padded_length. Qed.

(** The position is read back from the id. *)
Lemma task_id_at_inj (i j : nat) (x : pystr) :
  task_id_at i x → task_id_at j x → i = j.
Proof.
  intros (h1 & Hl1 & ->) (h2 & Hl2 & Heq).
  apply app_inv_head in Heq.
  apply app_inj_2 in Heq as [Heq _].
  - by apply (inj pretty), py_inj.
  - rewrite !length_app. simpl. lia.
Qed.

Section Sessions.

Variable env : Env.

(** *** What [add_task] does *)

Lemma add_task_eq (ty : TaskType) (t d : pystr) (input : dict) (b : Builder) :
  add_task env ty t d input b =
    let task_id := py "task_" ++ py (pretty (length (tasks b))) ++ py "_"
                   ++ strftime_HMS (now_at env (clock_reads (world b))) in
    let task := {| id := task_id; type := ty; title := t; description := d;
                   input_data := input; output_data := None;
                   status := py "pending";
                   created_at := isoformat (now_at env (S (clock_reads (world b))));
                   completed_at := None |} in
    (Ok task_id,
     set_tasks (λ l, l ++ [task])
       (set_world (tick_clock (tick_clock (world b))) b)).
Proof. done. Qed.

(** *** Calls other than [add_task] keep the tasks' identity *)

Lemma same_tasks_ids (ts ts' : list Task) :
  Forall2 same_task ts ts' → id <$> ts' = id <$> ts.
Proof.
  induction 1 as [|t t' ts ts' (Hid & _) _ IH]; [done|].
  rewrite !fmap_cons. by f_equal.
Qed.

Lemma same_tasks_insert (ts : list Task) (i : nat) (t t' : Task) :
  ts !! i = Some t → same_task t t' → Forall2 same_task ts (<[i := t']> ts).
Proof.
  intros Ht Hsame. rewrite <- (list_insert_id ts i t) at 1 by done.
  by apply Forall2_insert; [apply same_tasks_refl|].
Qed.

Lemma execute_task_same_tasks (i : nat) (b b' : Builder) (r : Result dict) :
  execute_task env i b = (r, b') → Forall2 same_task (tasks b) (tasks b').
Proof.
  destruct (tasks b !! i) as [t|] eqn:Ht.
  - intros Hexec.
    destruct (execute_task_at _ _ _ _ _ _ Ht Hexec) as (t' & Hon & -> & _).
    apply execute_task_on_frame in Hon as (?&?&?&?&?&_).
    by apply (same_tasks_insert _ _ t).
  - unfold execute_task. rewrite Ht. intros [= _ <-]. apply same_tasks_refl.
Qed.

Lemma execute_workflow_same_tasks (workflow_name : pystr) (b b' : Builder)
    (r : Result (list dict)) :
  execute_workflow env workflow_name b = (r, b') →
  Forall2 same_task (tasks b) (tasks b').
Proof.
  destruct (workflows b !! workflow_name) as [task_ids|] eqn:Hwf.
  - rewrite (execute_workflow_eq _ _ _ _ Hwf). cbv zeta.
    destruct (for_each_task env _ _ _) as [r0 b2] eqn:Hloop.
    apply for_each_task_spec in Hloop as (_ & _ & _ & _ & _ & _ & Hsame & _);
      [|apply select_NoDup|intros i; apply select_in_range].
    by destruct r0; intros [= <- <-].
  - unfold execute_workflow, bind, gets. simpl. rewrite Hwf.
    intros [= _ <-]. apply same_tasks_refl.
Qed.

Lemma export_workflow_results_tasks (workflow_name format : pystr) (b b' : Builder)
    (r : Result pystr) :
  export_workflow_results env workflow_name format b = (r, b') →
  tasks b' = tasks b
  ∧ clock_reads (world b) ≤ clock_reads (world b').
Proof.
  unfold export_workflow_results, bind, gets, zoom, datetime_now, write_json,
    ret, raise. simpl.
  intros H. repeat (case_match; simplify_eq/=); split; (done || lia).
Qed.

Lemma perform_other (c : Call) (b b' : Builder) (r : Result Returned) :
  (∀ ty t d input, c ≠ call_add_task ty t d input) →
  perform env c b = (r, b') →
  Forall2 same_task (tasks b) (tasks b') ∧ returned_ids [r] = [].
Proof.
  intros Hother. destruct c; simpl; unfold bind.
  - by destruct (Hother task_type t d input).
  - intros [= <- <-]. split; [apply same_tasks_refl|done].
  - destruct (execute_task env i b) as [[x|e] b1] eqn:Hexec;
      intros [= <- <-]; split; (by eapply execute_task_same_tasks) || done.
  - destruct (execute_workflow env workflow_name b) as [[x|e] b1] eqn:Hexec;
      intros [= <- <-]; split; (by eapply execute_workflow_same_tasks) || done.
  - unfold get_task_status, bind, gets. simpl.
    destruct (filter _ _); intros [= <- <-]; split; apply same_tasks_refl || done.
  - intros [= <- <-]. split; [apply same_tasks_refl|done].
  - destruct (export_workflow_results env workflow_name format b)
      as [[x|e] b1] eqn:Hexp;
      apply export_workflow_results_tasks in Hexp as [Htasks _];
      intros [= <- <-]; rewrite Htasks; split; apply same_tasks_refl || done.
Qed.

(** *** The ids of a session *)

Lemma positional_snoc (ids : list pystr) (x : pystr) :
  positional ids → task_id_at (length ids) x → positional (ids ++ [x]).
Proof.
  intros Hpos Hx i y Hy. apply lookup_app_Some in Hy as [Hy|[Hge Hy]]; [by apply Hpos|].
  apply list_lookup_singleton_Some in Hy as [Hi <-].
  by replace i with (length ids) by lia.
Qed.

Lemma positional_NoDup (ids : list pystr) : positional ids → NoDup ids.
Proof.
  intros Hpos. apply NoDup_alt. intros i j x Hi Hj.
  eapply task_id_at_inj; by apply Hpos.
Qed.

Lemma perform_ids (c : Call) (b b' : Builder) (r : Result Returned) :
  perform env c b = (r, b') →
  id <$> tasks b' = (id <$> tasks b) ++ returned_ids [r]
  ∧ (positional (id <$> tasks b) → positional (id <$> tasks b')).
Proof.
  assert ((∀ ty t d input, c ≠ call_add_task ty t d input) →
          perform env c b = (r, b') →
          id <$> tasks b' = (id <$> tasks b) ++ returned_ids [r]
          ∧ (positional (id <$> tasks b) → positional (id <$> tasks b'))) as Hother.
  { intros Hc Hperform. apply perform_other in Hperform as [Hsame ->]; [|done].
    by rewrite app_nil_r, (same_tasks_ids _ _ Hsame). }
  destruct c as [ty t d input| | | | | |]; try (by apply Hother).
  simpl. unfold bind. rewrite add_task_eq. cbv zeta. intros [= <- <-]. simpl.
  rewrite fmap_app. simpl. split; [done|].
  intros Hpos. apply positional_snoc; [done|].
  rewrite length_fmap. eexists. split; [|done]. apply strftime_HMS_length.
Qed.

Lemma returned_ids_cons (r : Result Returned) (rs : list (Result Returned)) :
  returned_ids (r :: rs) = returned_ids [r] ++ returned_ids rs.
Proof. apply (omap_app _ [r] rs). Qed.

Lemma session_ids (calls : list Call) :
  ∀ b, let out := session env calls b in
       id <$> tasks out.2 = (id <$> tasks b) ++ returned_ids out.1
       ∧ (positional (id <$> tasks b) → positional (id <$> tasks out.2)).
Proof.
  induction calls as [|c calls IH]; intros b; simpl.
  - by rewrite app_nil_r.
  - destruct (perform env c b) as [r b1] eqn:Hperform.
    apply perform_ids in Hperform as [Hids Hpos].
    specialize (IH b1). destruct (session env calls b1) as [rs b2].
    cbn [fst snd] in *.
    destruct IH as [Hids' Hpos']. split; [|auto].
    by rewrite Hids', Hids, <- app_assoc, (returned_ids_cons r rs).
Qed.

(** C7.  Whatever calls are made on a builder from its construction on,
    and whatever the clock shows, no two [add_task] calls return the same
    id: the id carries the length of [self.tasks] at the call, and nothing
    ever shortens that list. *)
Theorem add_task_ids_unique (calls : list Call) (w : World) :
  NoDup (returned_ids (session env calls (new_builder w)).1)
  ∧ returned_ids (session env calls (new_builder w)).1
    = id <$> tasks (session env calls (new_builder w)).2.
Proof.
  destruct (session_ids calls (new_builder w)) as [Hids Hpos].
  simpl in Hids. split; [|done].
  rewrite <- Hids. apply positional_NoDup, Hpos.
  by intros [|i] x Hx.
Qed.

(** *** Completed tasks *)

Lemma failed_not_completed : py "failed" ≠ py "completed".
Proof. by intros ?%py_inj. Qed.

Lemma pending_not_completed : py "pending" ≠ py "completed".
Proof. by intros ?%py_inj. Qed.

Lemma settled_mono (clock clock' : nat) (t : Task) :
  clock ≤ clock' → settled env clock t → settled env clock' t.
Proof. intros Hle (j & Hj & Hc & Hdone). exists j. split; [lia|done]. Qed.

Lemma healthy_mono (ts : list Task) (clock clock' : nat) :
  clock ≤ clock' → Forall (settled env clock) ts → Forall (settled env clock') ts.
Proof.
  intros Hle H. eapply Forall_impl; [done|]. intros t. by apply settled_mono.
Qed.

(** One execution of a settled task leaves it settled; when the
    execution returns, the task is completed with what was returned. *)
Lemma execute_task_on_settled (t t' : Task) (w w' : World) (r : Result dict) :
  settled env (clock_reads w) t →
  execute_task_on env t w = (r, t', w') →
  settled env (clock_reads w') t'
  ∧ (∀ result, r = Ok result →
       status t' = py "completed" ∧ output_data t' = Some result ∧ result ≠ []).
Proof.
  intros (j & Hj & Hcreated & _). rewrite execute_task_on_eq.
  destruct (dispatch env _ _ _) as [[result|e] w2] eqn:Hd;
    apply dispatch_frame in Hd as (_ & Hclock & _ & Hne); simpl in Hclock.
  - cbv zeta.
    destruct (_save_results env _ _) as [[[]|e] w3] eqn:Hs;
      apply save_results_frame in Hs as [_ Hclock3]; simpl in Hclock3;
      intros [= <- <- <-]; simpl; rewrite Hclock3, Hclock.
    + split; [|intros ? [= <-]; by eauto].
      exists j. split; [lia|]. split; [done|]. intros _.
      exists result, (clock_reads w).
      split; [done|]. split; [by apply Hne|]. split; [lia|done].
    + split; [|done]. exists j. split; [lia|]. split; [done|].
      intros Hst. by destruct failed_not_completed.
  - intros [= <- <- <-]; simpl. rewrite Hclock. split; [|done].
    exists j. split; [lia|]. split; [done|].
    intros Hst. by destruct failed_not_completed.
Qed.

Lemma execute_task_healthy (i : nat) (b b' : Builder) (r : Result dict) :
  healthy env b → execute_task env i b = (r, b') → healthy env b'.
Proof.
  unfold healthy. intros Hb.
  destruct (tasks b !! i) as [t|] eqn:Ht.
  - intros Hexec.
    destruct (execute_task_at _ _ _ _ _ _ Ht Hexec) as (t' & Hon & -> & _).
    pose proof (execute_task_on_frame _ _ _ _ _ _ Hon) as (_&_&_&_&_&Hclock&_).
    apply execute_task_on_settled in Hon as [Ht' _].
    + apply Forall_insert; [|done]. by eapply healthy_mono.
    + eapply Forall_lookup_1; eauto.
  - unfold execute_task. rewrite Ht. by intros [= _ <-].
Qed.

Lemma for_each_task_healthy (todo : list nat) :
  ∀ (acc : list dict) (b b' : Builder) (r : Result (list dict)),
    healthy env b → for_each_task env todo acc b = (r, b') → healthy env b'.
Proof.
  induction todo as [|i rest IH]; intros acc b b' r Hb; simpl.
  - by intros [= _ <-].
  - unfold bind at 1.
    destruct (execute_task env i b) as [[result|e] b1] eqn:Hexec;
      apply execute_task_healthy in Hexec; try done.
    + by apply IH.
    + by intros [= _ <-].
Qed.

Lemma execute_workflow_healthy (workflow_name : pystr) (b b' : Builder)
    (r : Result (list dict)) :
  healthy env b → execute_workflow env workflow_name b = (r, b') → healthy env b'.
Proof.
  intros Hb. destruct (workflows b !! workflow_name) as [task_ids|] eqn:Hwf.
  - rewrite (execute_workflow_eq _ _ _ _ Hwf). cbv zeta.
    destruct (for_each_task env _ _ _) as [r0 b2] eqn:Hloop.
    apply for_each_task_healthy in Hloop; [|done].
    by destruct r0; intros [= <- <-].
  - unfold execute_workflow, bind, gets. simpl. rewrite Hwf. by intros [= _ <-].
Qed.

Lemma perform_healthy (c : Call) (b b' : Builder) (r : Result Returned) :
  healthy env b → perform env c b = (r, b') → healthy env b'.
Proof.
  intros Hb. destruct c; simpl; unfold bind.
  - rewrite add_task_eq. cbv zeta. intros [= _ <-]. unfold healthy. simpl.
    apply Forall_app. split.
    + eapply healthy_mono; [|done]. lia.
    + apply Forall_singleton. exists (S (clock_reads (world b))).
      split; [lia|]. split; [done|]. simpl.
      intros Hst. by destruct pending_not_completed.
  - by intros [= _ <-].
  - destruct (execute_task env i b) as [[x|e] b1] eqn:Hexec;
      intros [= _ <-]; by eapply execute_task_healthy.
  - destruct (execute_workflow env workflow_name b) as [[x|e] b1] eqn:Hexec;
      intros [= _ <-]; by eapply execute_workflow_healthy.
  - unfold get_task_status, bind, gets. simpl.
    by destruct (filter _ _); intros [= _ <-].
  - by intros [= _ <-].
  - destruct (export_workflow_results env workflow_name format b)
      as [[x|e] b1] eqn:Hexp;
      apply export_workflow_results_tasks in Hexp as [Htasks Hclock];
      intros [= _ <-]; unfold healthy; rewrite Htasks; by eapply healthy_mono.
Qed.

Lemma session_healthy (calls : list Call) :
  ∀ b, healthy env b → healthy env (session env calls b).2.
Proof.
  induction calls as [|c calls IH]; intros b Hb; simpl; [done|].
  destruct (perform env c b) as [r b1] eqn:Hperform.
  apply perform_healthy in Hperform; [|done].
  specialize (IH b1 Hperform). by destruct (session env calls b1).
Qed.

(** A settled task that is completed has its output and its two
    timestamps, the second one read later than the first. *)
Lemma settled_completed (clock : nat) (t : Task) :
  settled env clock t →
  status t = py "completed" →
  ∃ d j k,
    output_data t = Some d ∧ d ≠ []
    ∧ created_at t = isoformat (now_at env j)
    ∧ completed_at t = Some (isoformat (now_at env k))
    ∧ j < k.
Proof.
  intros (j & _ & Hcreated & Hdone) Hst.
  destruct (Hdone Hst) as (d & k & Hout & Hne & Hjk & Hcompleted).
  by exists d, j, k.
Qed.

(** On the stored texts themselves: a later reading of a clock that does
    not go back gives a timestamp that compares as not smaller. *)
Lemma later_reading_text (j k : nat) :
  clock_never_goes_back env →
  valid_datetime (now_at env k) →
  j ≤ k →
  str_le (isoformat (now_at env j)) (isoformat (now_at env k)) = true.
Proof. intros Hclock Hvalid Hjk. apply isoformat_le; [done|]. by apply Hclock. Qed.

(** C5, as amended.  In every state that calls of the public methods
    lead to from construction, a task whose status is "completed" has a
    non-empty output_data and a completed_at; and when [execute_task]
    returns, the task it ran on is completed, its output_data is the
    non-empty mapping returned, and its completed_at is set.  created_at
    and completed_at are the texts of two readings of [datetime.now()],
    completed_at the one that was read later.  The code never compares
    the two: which of them is the earlier date is up to the clock. *)
Theorem completed_tasks_have_output (calls : list Call) (w : World) :
  (∀ t, t ∈ tasks (session env calls (new_builder w)).2 →
        status t = py "completed" →
        ∃ d j k,
          output_data t = Some d ∧ d ≠ []
          ∧ created_at t = isoformat (now_at env j)
          ∧ completed_at t = Some (isoformat (now_at env k))
          ∧ j < k)
  ∧ (∀ i result b',
       execute_task env i (session env calls (new_builder w)).2 = (Ok result, b') →
       ∃ t' j k,
         tasks b' !! i = Some t'
         ∧ status t' = py "completed"
         ∧ output_data t' = Some result ∧ result ≠ []
         ∧ created_at t' = isoformat (now_at env j)
         ∧ completed_at t' = Some (isoformat (now_at env k))
         ∧ j < k).
Proof.
  assert (healthy env (session env calls (new_builder w)).2) as Hb.
  { apply session_healthy. unfold healthy. simpl. constructor. }
  split.
  - intros t Ht Hst. eapply settled_completed; [|done].
    unfold healthy in Hb. rewrite Forall_forall in Hb. by apply Hb.
  - intros i result b' Hexec.
    destruct (tasks (session env calls (new_builder w)).2 !! i) as [t|] eqn:Ht.
    2:{ unfold execute_task in Hexec. by rewrite Ht in Hexec. }
    destruct (execute_task_at _ _ _ _ _ _ Ht Hexec) as (t' & Hon & Htasks & _).
    apply execute_task_on_settled in Hon as [Hsettled Hok].
    2:{ eapply Forall_lookup_1; eauto. }
    destruct (Hok result eq_refl) as (Hst & Hout & Hne).
    destruct (settled_completed _ _ Hsettled Hst)
      as (d & j & k & Hout' & _ & Hc & Hd & Hjk).
    exists t', j, k. repeat split; try done.
    rewrite Htasks. apply list_lookup_insert_eq. by eapply lookup_lt_Some.
Qed.

End Sessions.

(** *** Concrete runs of [execute_task] *)



(** It also fails for a task that completed once and is run again. *)
Lemma failed_rerun_keeps_completed_at :
  ∃ t1 w1 result e t2 w2,
    execute_task_on flaky_env
      (summarization_task (py "task_0_120007") (py "A") (py "one two three"))
      empty_world = (Ok result, t1, w1)
    ∧ execute_task_on flaky_env t1 w1 = (Raise e, t2, w2)
    ∧ status t2 = py "failed"
    ∧ completed_at t2 = Some (isoformat noon)
    ∧ output_data t2 = Some [ (py "error", VStr []) ].
Proof.
  do 6 eexists. split; [vm_compute; reflexivity|].
  split; [vm_compute; reflexivity|]. by vm_compute.
Qed.


(** C6.  The ratio computation does raise a division error: on the text
    made of one space the handler raises [ZeroDivisionError] and the task
    ends as failed, while on the empty text the ratio is 0 and on "one two
    three four five", summarized as "one two", it is 2/5. *)
Theorem summarize_blank_text_raises :
  _summarize_text stub_env [ (py "text", VStr (py " ")) ] empty_world
    = (Raise ZeroDivisionError, tick_backend empty_world)
  ∧ (∃ t' w',
       execute_task_on stub_env
         (summarization_task (py "task_0_120007") (py "A") (py " ")) empty_world
       = (Raise ZeroDivisionError, t', w')
       ∧ status t' = py "failed"
       ∧ output_data t' = Some [ (py "error", VStr (py "division by zero")) ])
  ∧ (∃ result,
       _summarize_text stub_env [ (py "text", VStr []) ] empty_world
         = (Ok result, tick_backend empty_world)
       ∧ get result (py "compression_ratio") VNone = VInt 0)
  ∧ (∃ result,
       _summarize_text stub_env
         [ (py "text", VStr (py "one two three four five")); (py "max_length", VInt 2) ]
         empty_world = (Ok result, tick_backend empty_world)
       ∧ get result (py "original_length") VNone = VInt 5
       ∧ get result (py "summary_length") VNone = VInt 2
       ∧ get result (py "compression_ratio") VNone = VFloat (2 # 5)).
Proof.
  split; [by vm_compute|].
  split; [do 2 eexists; split; [vm_compute; reflexivity|by vm_compute]|].
  split; eexists; (split; [vm_compute; reflexivity|by vm_compute]).
Qed.

(** *** Concrete runs of workflows *)





(** A workflow that names the only task twice runs it once. *)
Lemma repeated_id_runs_once :
  ∃ result b',
    execute_workflow stub_env (py "twice") repeated = (Ok [ result ], b')
    ∧ started (stdout (world b')) = [ py "A" ].
Proof. do 2 eexists. split; [vm_compute; reflexivity|]. by vm_compute. Qed.

(** *** Concrete exports *)

Lemma export_workflow_results_json_witness :
  ∃ b' doc,
    export_workflow_results stub_env (py "w") (py "json") two_tasks
      = (Ok (export_file (py "w")), b')
    ∧ export_file (py "w") = py "results/w_results.json"
    ∧ tasks b' = tasks two_tasks
    ∧ files (world b') !! export_file (py "w") = Some (document doc)
    ∧ item (json_load doc) (py "tasks")
      = Some (VList (reload <$> (asdict <$>
                filter (λ t, id t ∈ [ py "task_1_120007"; py "task_0_120007" ])
                  (tasks two_tasks)))).
Proof.
  destruct (export_workflow_results_json stub_env (py "w")
              [ py "task_1_120007"; py "task_0_120007" ] two_tasks)
    as (r & b' & Hexport & Htasks & Hwritten & _).
  { vm_compute. reflexivity. }
  destruct Hwritten as [-> (doc & Hfile & Hitem)].
  - reflexivity.
  - reflexivity.
  - vm_compute. reflexivity.
  - apply (bool_decide_unpack
             (Forall (λ t, encodable (json_dump (asdict t)) = true)
                (filter (λ t, id t ∈ [ py "task_1_120007"; py "task_0_120007" ])
                   (tasks two_tasks)))).
    vm_compute. exact I.
  - exists b', doc. split; [exact Hexport|]. split; [vm_compute; reflexivity|].
    split; [exact Htasks|]. split; [exact Hfile|exact Hitem].
Defined.

(** The claim C2 fails on the same workflow: the exported array holds the
    record of A before the record of B. *)
Lemma export_ignores_list_order :
  workflows two_tasks !! py "w" = Some [ py "task_1_120007"; py "task_0_120007" ]
  ∧ title <$> in_task_id_list_order (tasks two_tasks)
                [ py "task_1_120007"; py "task_0_120007" ]
    = [ py "B"; py "A" ]
  ∧ ∃ path b' doc records,
      export_workflow_results stub_env (py "w") (py "json") two_tasks = (Ok path, b')
      ∧ files (world b') !! path = Some (document doc)
      ∧ item (json_load doc) (py "tasks") = Some (VList records)
      ∧ (λ record, item record (py "title")) <$> records
        = [ Some (VStr (py "A")); Some (VStr (py "B")) ]
      ∧ records
        ≠ reload <$> (asdict <$> in_task_id_list_order (tasks two_tasks)
                                   [ py "task_1_120007"; py "task_0_120007" ]).
Proof.
  split; [by vm_compute|]. split; [by vm_compute|].
  do 4 eexists. split; [vm_compute; reflexivity|].
  split; [vm_compute; reflexivity|].
  split; [vm_compute; reflexivity|].
  by vm_compute.
Qed.

(** What the file holds for the [type] field: the [str()] of the member. *)
Lemma reload_asdict_type (t : Task) :
  item (reload (asdict t)) (py "type") = Some (VStr (str_TaskType (type t)))
  ∧ item (asdict t) (py "type") = Some (VEnum (type t)).
Proof. unfold asdict. rewrite reload_dict. by cbn [map fst snd]. Qed.

(** C3.  A format other than "json" is not accepted silently: no file is
    written, but the call does not return either.  On the registered
    workflow "w" and the format "csv", [export_workflow_results] raises
    [UnboundLocalError] for the local [filepath]. *)
Theorem export_csv_raises :
  workflows two_tasks !! py "w" = Some [ py "task_1_120007"; py "task_0_120007" ]
  ∧ ∃ b',
      export_workflow_results stub_env (py "w") (py "csv") two_tasks
        = (Raise (UnboundLocalError (py "filepath")), b')
      ∧ files (world b') = files (world two_tasks)
      ∧ tasks b' = tasks two_tasks.
Proof.
  split; [by vm_compute|].
  eexists. split.
  - eapply export_other_format; [by vm_compute|by intros ?%py_inj].
  - split; reflexivity.
Qed.

(** *** A concrete session *)

Lemma completed_tasks_have_output_witness :
  Forall (λ t, ∃ d j k,
            output_data t = Some d ∧ d ≠ []
            ∧ created_at t = isoformat (now_at stub_env j)
            ∧ completed_at t = Some (isoformat (now_at stub_env k))
            ∧ j < k)
    (tasks (session stub_env
              [ call_add_task TEXT_SUMMARIZATION (py "A") (py "first")
                  [ (py "text", VStr (py "one two three")) ];
                call_execute_task 0 ]
              (new_builder empty_world)).2).
Proof.
  apply Forall_forall. intros t Ht.
  destruct (completed_tasks_have_output stub_env
              [ call_add_task TEXT_SUMMARIZATION (py "A") (py "first")
                  [ (py "text", VStr (py "one two three")) ];
                call_execute_task 0 ] empty_world) as [Hcompleted _].
  apply (Hcompleted t Ht).
  revert t Ht. apply Forall_forall.
  apply (bool_decide_unpack
           (Forall (λ t, status t = py "completed")
              (tasks (session stub_env
                        [ call_add_task TEXT_SUMMARIZATION (py "A") (py "first")
                            [ (py "text", VStr (py "one two three")) ];
                          call_execute_task 0 ]
                        (new_builder empty_world)).2))).
  vm_compute. exact I.
Defined.

(** The claim C5 fails when the clock is set back between the creation
    of a task and its execution: the call of [execute_task] returns, the
    task is completed, and its completed_at is an earlier date than its
    created_at, as datetimes and as the stored texts. *)
Lemma completed_before_created :
  ∃ task_id result b t,
    session set_back_env
      [ call_add_task TEXT_SUMMARIZATION (py "A") (py "first")
          [ (py "text", VStr (py "one two three")) ];
        call_execute_task 0 ]
      (new_builder empty_world)
    = ([ Ok (returned_id task_id); Ok (returned_result result) ], b)
    ∧ tasks b = [ t ]
    ∧ status t = py "completed"
    ∧ created_at t = py "2024-10-27T02:59:59"
    ∧ completed_at t = Some (py "2024-10-27T02:00:01")
    ∧ str_le (py "2024-10-27T02:59:59") (py "2024-10-27T02:00:01") = false
    ∧ datetime_le (now_at set_back_env 1) (now_at set_back_env 2) = false.
Proof.
  do 4 eexists. split; [vm_compute; reflexivity|].
  split; [reflexivity|]. by vm_compute.
Qed.

(** The session above does complete its task. *)
Lemma session_completes_task :
  status <$> tasks (session stub_env
                      [ call_add_task TEXT_SUMMARIZATION (py "A") (py "first")
                          [ (py "text", VStr (py "one two three")) ];
                        call_execute_task 0 ]
                      (new_builder empty_world)).2
  = [ py "completed" ].
Proof. by vm_compute. Qed.

(** * Further properties *)

(** ** Looking a task up *)

(** The first task with a given id, as the generator expression of
    [get_task_status] finds it. *)
Lemma first_with_id (ts : list Task) (task_id : pystr) :
  match filter (λ t, id t = task_id) ts with
  | [] => ∀ t, t ∈ ts → id t ≠ task_id
  | found :: _ =>
      ∃ i, ts !! i = Some found ∧ id found = task_id
           ∧ ∀ j t, j < i → ts !! j = Some t → id t ≠ task_id
  end.
Proof.
  induction ts as [|t ts IH]; simpl.
  - by intros t ?%elem_of_nil.
  - rewrite filter_cons. destruct (decide (id t = task_id)) as [Heq|Hne].
    + exists 0. repeat split; [done|]. intros j t' Hj. lia.
    + destruct (filter _ ts) as [|found rest].
      * intros t' [->|Hin]%elem_of_cons; [done|by apply IH].
      * destruct IH as (i & Hi & Hid & Hfirst). exists (S i).
        repeat split; [done..|]. intros [|j] t' Hj Ht'; simpl in Ht'.
        -- by simplify_eq.
        -- apply (Hfirst j); [lia|done].
Qed.

(** X1.  [get_task_status] never raises and changes nothing.  What it
    returns is always a non-empty mapping, hence never a false value: the
    mapping with the one key "error" when no task has the id, and the
    record of the first task that has it otherwise. *)
Theorem get_task_status_answers (task_id : pystr) (b : Builder) :
  ∃ d,
    get_task_status task_id b = (Ok (VDict d), b)
    ∧ d ≠ []
    ∧ truthy (VDict d) = true
    ∧ ((∀ t, t ∈ tasks b → id t ≠ task_id) →
       d = [ (py "error", VStr msg_task_missing) ])
    ∧ (∀ i t,
         tasks b !! i = Some t → id t = task_id →
         (∀ j t', j < i → tasks b !! j = Some t' → id t' ≠ task_id) →
         VDict d = asdict t).
Proof.
  unfold get_task_status, bind, gets, ret. simpl.
  pose proof (first_with_id (tasks b) task_id) as Hfirst.
  destruct (filter _ (tasks b)) as [|found rest].
  - eexists. split; [done|]. split; [done|]. split; [done|]. split; [done|].
    intros i t Ht Hid _. by destruct (Hfirst t (list_elem_of_lookup_2 _ _ _ Ht)).
  - destruct Hfirst as (i & Hi & Hid & Hbefore).
    eexists. split; [done|]. split; [done|]. split; [done|]. split.
    + intros Hnone. by destruct (Hnone found (list_elem_of_lookup_2 _ _ _ Hi)).
    + intros i' t Ht Hidt Hbefore'.
      destruct (Nat.lt_trichotomy i i') as [Hlt|[->|Hgt]].
      * by destruct (Hbefore' i found Hlt Hi).
      * by simplify_eq.
      * by destruct (Hbefore i' t Hgt Ht).
Qed.

Section AddThenLook.

Variable env : Env.

(** X2.  In every state that calls of the public methods lead to from
    construction, [add_task] returns an id under which [get_task_status]
    reports the task just added: a record with the given type, title,
    description and input, status "pending", no output_data and no
    completed_at. *)
Theorem add_task_then_get_task_status (calls : list Call) (w : World)
    (ty : TaskType) (t d : pystr) (input : dict) :
  ∃ x b1 created,
    add_task env ty t d input (session env calls (new_builder w)).2 = (Ok x, b1)
    ∧ get_task_status x b1
      = (Ok (asdict {| id := x; type := ty; title := t; description := d;
                       input_data := input; output_data := None;
                       status := py "pending"; created_at := created;
                       completed_at := None |}), b1).
Proof.
  destruct (session_ids env calls (new_builder w)) as [_ Hpos].
  set (b := (session env calls (new_builder w)).2) in *.
  assert (positional (id <$> tasks b)) as Hb by (apply Hpos; by intros [|i] x Hx).
  rewrite add_task_eq. cbv zeta. do 3 eexists. split; [done|].
  unfold get_task_status, bind, gets, ret. simpl.
  rewrite filter_app, filter_cons, decide_True, filter_nil by done.
  match goal with |- context [filter ?P (tasks b)] =>
    pose proof (first_with_id (tasks b)
                  (py "task_" ++ py (pretty (length (tasks b))) ++ py "_"
                   ++ strftime_HMS (now_at env (clock_reads (world b))))) as Hfirst;
    simpl in Hfirst; destruct (filter P (tasks b)) as [|found rest]
  end; [done|].
  destruct Hfirst as (i & Hi & Heq & _). exfalso.
  assert (task_id_at i (id found)) as Hat.
  { apply Hb. by rewrite list_lookup_fmap, Hi. }
  assert (task_id_at (length (tasks b)) (id found)) as Hnew.
  { rewrite Heq. eexists. split; [|done]. apply strftime_HMS_length. }
  pose proof (task_id_at_inj _ _ _ Hat Hnew). apply lookup_lt_Some in Hi. lia.
Qed.

End AddThenLook.

(** ** More on [execute_task] *)

Section ExecuteTaskMore.

Variable env : Env.

(** A handler calls the backend at most once, and exactly once when it
    returns. *)
Lemma dispatch_calls (ty : TaskType) (input : dict) (w w2 : World) (r : Result dict) :
  dispatch env ty input w = (r, w2) →
  backend_calls w2 ≤ S (backend_calls w)
  ∧ (∀ result, r = Ok result → backend_calls w2 = S (backend_calls w)).
Proof.
  destruct ty; simpl;
    unfold _generate_content, _analyze_data, _summarize_text, _generate_email,
      _translate_text, _generate_code, bind, of_result, chat_completion,
      Path_exists, ret, raise;
    intros H; repeat (case_match; simplify_eq/=);
    split; (lia || done || by intros ? [= <-]).
Qed.

Lemma save_results_files (t : Task) (w w2 : World) (r : Result unit) :
  _save_results env t w = (r, w2) →
  backend_calls w2 = backend_calls w
  ∧ match r with
    | Ok _ => files w2 = <[result_file t := document (json_dump (asdict t))]> (files w)
    | Raise _ => files w2 = files w ∨ files w2 = <[result_file t := unfinished]> (files w)
    end.
Proof.
  unfold _save_results. fold (result_file t). intros H.
  apply write_json_outcome in H as (_ & _ & Hcalls & Hr).
  split; [done|]. destruct r as [[]|e].
  - by destruct Hr as (_ & _ & _ & Hr).
  - destruct Hr as [[_ Hr]|(_ & _ & Hr)]; [by left|by right].
Qed.


(** X4.  One execution of a task never calls the backend twice and never
    reads the clock twice: there is no retry.  An execution that returns
    has made exactly one backend call and read the clock exactly once. *)
Theorem execute_task_calls_backend_once (t : Task) (w : World) :
  match execute_task_on env t w with
  | (Ok _, _, w') =>
      backend_calls w' = S (backend_calls w) ∧ clock_reads w' = S (clock_reads w)
  | (Raise _, _, w') =>
      backend_calls w ≤ backend_calls w' ≤ S (backend_calls w)
      ∧ clock_reads w ≤ clock_reads w' ≤ S (clock_reads w)
  end.
Proof.
  rewrite execute_task_on_eq.
  destruct (dispatch env _ _ _) as [[result|e] w2] eqn:Hd;
    pose proof (dispatch_frame _ _ _ _ _ _ Hd) as (_ & Hclock & _ & _);
    pose proof (dispatch_calls _ _ _ _ _ Hd) as [Hle Hok]; simpl in *.
  - specialize (Hok result eq_refl). cbv zeta.
    destruct (_save_results env _ _) as [[[]|e] w3] eqn:Hs;
      pose proof (save_results_frame _ _ _ _ _ Hs) as [_ Hclock3];
      apply save_results_files in Hs as [Hcalls _]; simpl in *; lia.
  - assert (backend_calls w ≤ backend_calls w2); [|lia].
    clear -Hd. revert Hd. destruct (type t); simpl;
      unfold _generate_content, _analyze_data, _summarize_text, _generate_email,
        _translate_text, _generate_code, bind, of_result, chat_completion,
        Path_exists, ret, raise;
      intros H; repeat (case_match; simplify_eq/=); lia.
Qed.

Lemma completed_with_identity (result : dict) (now : Datetime) (t1 t2 : Task) :
  same_identity t1 t2 → completed_with result now t1 = completed_with result now t2.
Proof.
  destruct t1, t2. unfold same_identity, completed_with. simpl.
  intros (?&?&?&?&?&?). by simplify_eq.
Qed.

(** X5.  [execute_task] does not look at where a task stands: run on two
    task objects that differ only in status, output_data and completed_at
    (a pending task and the same task after an earlier run, say) it has
    the same outcome and the same effects, and leaves the same status and
    output_data; when it returns, the two tasks end up equal. *)
Theorem execute_task_ignores_progress (t1 t2 : Task) (w : World) :
  same_identity t1 t2 →
  (execute_task_on env t1 w).1.1 = (execute_task_on env t2 w).1.1
  ∧ (execute_task_on env t1 w).2 = (execute_task_on env t2 w).2
  ∧ status (execute_task_on env t1 w).1.2 = status (execute_task_on env t2 w).1.2
  ∧ output_data (execute_task_on env t1 w).1.2
    = output_data (execute_task_on env t2 w).1.2
  ∧ (∀ result, (execute_task_on env t1 w).1.1 = Ok result →
       (execute_task_on env t1 w).1.2 = (execute_task_on env t2 w).1.2).
Proof.
  intros Hsame. pose proof Hsame as (Hid & Hty & Htitle & Hdesc & Hinput & Hcreated).
  rewrite !execute_task_on_eq, Hty, Htitle, Hinput.
  destruct (dispatch env _ _ _) as [[result|e] w2]; [|done].
  cbv zeta. rewrite (completed_with_identity result _ _ _ Hsame).
  by destruct (_save_results env _ _) as [[[]|e] w3].
Qed.

(** *** [_analyze_data] before it loads anything *)

(** X6.  [_analyze_data] raises [ValueError] before loading anything and
    without calling the backend in three cases: when data_path is absent
    or false (the file system is not even asked), when nothing exists at
    the path, and when the path ends neither in ".csv" nor in ".json". *)
Theorem analyze_data_rejects (input : dict) (w : World) :
  (truthy (get input (py "data_path") VNone) = false →
   _analyze_data env input w = (Raise (ValueError msg_data_file_missing), w))
  ∧ (∀ p, get input (py "data_path") VNone = VStr p → p ≠ [] →
       path_exists env (fs_accesses w) p = false →
       _analyze_data env input w
       = (Raise (ValueError msg_data_file_missing), tick_fs w))
  ∧ (∀ p, get input (py "data_path") VNone = VStr p → p ≠ [] →
       path_exists env (fs_accesses w) p = true →
       endswith p (py ".csv") = false → endswith p (py ".json") = false →
       _analyze_data env input w
       = (Raise (ValueError msg_unsupported_file), tick_fs w)).
Proof.
  unfold _analyze_data, bind, ret, raise. repeat split.
  - intros Hfalse. by rewrite Hfalse.
  - intros p Hp Hne Hexists. rewrite Hp. simpl.
    rewrite bool_decide_false by done. simpl. by rewrite Hexists.
  - intros p Hp Hne Hexists Hcsv Hjson. rewrite Hp. simpl.
    rewrite bool_decide_false by done. simpl. by rewrite Hexists, Hcsv, Hjson.
Qed.

(** *** A text that is not a string *)

(** X7.  With a text that is not a [str], [_translate_text] raises
    [AttributeError] before the backend is called, and the world is
    untouched; [_summarize_text] needs the text only after the backend has
    answered, so there the same input costs one backend call before the
    same error is raised. *)
Theorem text_that_is_no_str (input : dict) (w : World) (bound : PyVal)
    (summary : pystr) :
  (∀ s, get input (py "text") (VStr []) ≠ VStr s) →
  times2 (get input (py "max_length") (VInt 150)) = Ok bound →
  acreate env (backend_calls w) (summarization_request input bound) = Ok summary →
  let e := AttributeError (py "'" ++ class_name (get input (py "text") (VStr []))
                           ++ py "' object has no attribute 'split'") in
  _translate_text env input w = (Raise e, w)
  ∧ _summarize_text env input w = (Raise e, tick_backend w).
Proof.
  intros Hno Hbound Hreply.
  unfold _translate_text, _summarize_text, bind, of_result, chat_completion, ret.
  rewrite Hbound, Hreply.
  destruct (get input (py "text") (VStr [])) as [| | | |s| | | |] eqn:Htext;
    try done.
  by destruct (Hno s).
Qed.

End ExecuteTaskMore.

Lemma text_that_is_no_str_witness :
  _translate_text stub_env [ (py "text", VNone) ] empty_world
    = (Raise (AttributeError (py "'" ++ py "NoneType"
                              ++ py "' object has no attribute 'split'")),
       empty_world)
  ∧ _summarize_text stub_env [ (py "text", VNone) ] empty_world
    = (Raise (AttributeError (py "'" ++ py "NoneType"
                              ++ py "' object has no attribute 'split'")),
       tick_backend empty_world).
Proof.
  apply (text_that_is_no_str stub_env [ (py "text", VNone) ] empty_world
           (VInt 300) (py "one two")); [discriminate|reflexivity|reflexivity].
Defined.

Lemma execute_task_ignores_progress_witness :
  (execute_task_on flaky_env
     (summarization_task (py "task_0_120007") (py "A") (py "one two three"))
     empty_world).1.1
  = (execute_task_on flaky_env
       (set_status (py "failed")
          (summarization_task (py "task_0_120007") (py "A") (py "one two three")))
       empty_world).1.1.
Proof.
  apply (execute_task_ignores_progress flaky_env
           (summarization_task (py "task_0_120007") (py "A") (py "one two three"))
           (set_status (py "failed")
              (summarization_task (py "task_0_120007") (py "A") (py "one two three")))
           empty_world).
  repeat split.
Defined.

(** ** More on sessions *)

Section SessionsMore.

Variable env : Env.


Lemma execute_task_on_identity (t : Task) (w : World) :
  same_identity t (execute_task_on env t w).1.2.
Proof.
  rewrite execute_task_on_eq.
  destruct (dispatch env _ _ _) as [[result|e] w2]; [|by repeat split].
  cbv zeta. destruct (_save_results env _ _) as [[[]|e] w3]; by repeat split.
Qed.

(** [self.tasks] changes in two ways only: a task is appended by
    [add_task], or the task at one position is replaced by what
    [execute_task] makes of it.  A property of the list that both steps
    keep holds after every session. *)
Lemma session_tasks_invariant (Q : list Task → Prop) :
  (∀ ts i t w, Q ts → ts !! i = Some t →
               Q (<[i := (execute_task_on env t w).1.2]> ts)) →
  (∀ ts x ty t d input created,
     Q ts →
     Q (ts ++ [ {| id := x; type := ty; title := t; description := d;
                   input_data := input; output_data := None;
                   status := py "pending"; created_at := created;
                   completed_at := None |} ])) →
  ∀ calls b, Q (tasks b) → Q (tasks (session env calls b).2).
Proof.
  intros Hexec Hadd.
  assert (∀ i b r b', Q (tasks b) → execute_task env i b = (r, b') → Q (tasks b'))
    as Hexec_at.
  { intros i b r b' Hb. destruct (tasks b !! i) as [t|] eqn:Ht.
    - intros Hrun.
      destruct (execute_task_at _ _ _ _ _ _ Ht Hrun) as (t' & Hon & -> & _).
      specialize (Hexec _ i t (world b) Hb Ht). by rewrite Hon in Hexec.
    - unfold execute_task. rewrite Ht. by intros [= _ <-]. }
  assert (∀ todo acc b r b',
            Q (tasks b) → for_each_task env todo acc b = (r, b') → Q (tasks b'))
    as Hloop.
  { induction todo as [|i rest IH]; intros acc b r b' Hb; simpl.
    - by intros [= _ <-].
    - unfold bind at 1.
      destruct (execute_task env i b) as [[result|e] b1] eqn:Hrun;
        apply Hexec_at in Hrun; try done.
      + by apply IH.
      + by intros [= _ <-]. }
  assert (∀ c b r b', Q (tasks b) → perform env c b = (r, b') → Q (tasks b'))
    as Hperform.
  { intros c b r b' Hb. destruct c; simpl; unfold bind.
    - rewrite add_task_eq. cbv zeta. intros [= _ <-]. simpl. by apply Hadd.
    - by intros [= _ <-].
    - destruct (execute_task env i b) as [[x|e] b1] eqn:Hrun;
        intros [= _ <-]; by eapply Hexec_at.
    - destruct (workflows b !! workflow_name) as [task_ids|] eqn:Hwf.
      + rewrite (execute_workflow_eq _ _ _ _ Hwf). cbv zeta.
        destruct (for_each_task env _ _ _) as [[x|e] b2] eqn:Hrun;
          apply Hloop in Hrun; try done; by intros [= _ <-].
      + unfold execute_workflow, bind, gets. simpl. rewrite Hwf.
        by intros [= _ <-].
    - unfold get_task_status, bind, gets. simpl.
      by destruct (filter _ _); intros [= _ <-].
    - by intros [= _ <-].
    - destruct (export_workflow_results env workflow_name format b)
        as [[x|e] b1] eqn:Hexp;
        apply export_workflow_results_tasks in Hexp as [Htasks _];
        intros [= _ <-]; by rewrite Htasks. }
  induction calls as [|c calls IH]; intros b Hb; simpl; [done|].
  destruct (perform env c b) as [r b1] eqn:Hc.
  apply Hperform in Hc; [|done].
  specialize (IH b1 Hc). by destruct (session env calls b1).
Qed.


Lemma same_identity_refl (t : Task) : same_identity t t.
Proof. by repeat split. Qed.

Lemma same_identity_trans (t1 t2 t3 : Task) :
  same_identity t1 t2 → same_identity t2 t3 → same_identity t1 t3.
Proof.
  unfold same_identity. intros (?&?&?&?&?&?) (?&?&?&?&?&?).
  repeat split; congruence.
Qed.

Lemma session_length (calls : list Call) :
  ∀ b, length (tasks (session env calls b).2)
       = length (tasks b) + add_task_calls calls.
Proof.
  induction calls as [|c calls IH]; intros b; simpl; [lia|].
  destruct (perform env c b) as [r b1] eqn:Hc.
  specialize (IH b1). destruct (session env calls b1) as [rs b2]. simpl in *.
  rewrite IH. clear IH.
  assert ((∀ ty t d input, c ≠ call_add_task ty t d input) →
          length (tasks b1) = length (tasks b)) as Hother.
  { intros Hne. apply perform_other in Hc as [Hsame _]; [|done].
    symmetry. by eapply Forall2_length. }
  destruct c; try (rewrite Hother by done; lia).
  simpl in Hc. unfold bind in Hc. rewrite add_task_eq in Hc.
  injection Hc as _ <-. simpl. rewrite length_app. simpl. lia.
Qed.

(** X9.  No call removes, moves or renames a task: after any session the
    tasks that were there are at the same positions with the same id,
    type, title, description, input_data and created_at, and the list is
    longer by exactly the number of [add_task] calls. *)
Theorem tasks_are_never_removed (calls : list Call) (b : Builder) :
  length (tasks (session env calls b).2) = length (tasks b) + add_task_calls calls
  ∧ ∀ i t, tasks b !! i = Some t →
           ∃ t', tasks (session env calls b).2 !! i = Some t' ∧ same_identity t t'.
Proof.
  split; [apply session_length|].
  apply (session_tasks_invariant
           (λ ts, ∀ i t, tasks b !! i = Some t →
                         ∃ t', ts !! i = Some t' ∧ same_identity t t')).
  - intros ts i t w0 Hts Ht j t0 Hj.
    destruct (Hts j t0 Hj) as (t1 & Ht1 & Hsame).
    destruct (decide (i = j)) as [->|Hne].
    + exists (execute_task_on env t w0).1.2. split.
      * apply list_lookup_insert_eq. by eapply lookup_lt_Some.
      * simplify_eq. eapply same_identity_trans; [done|].
        apply execute_task_on_identity.
    + exists t1. by rewrite list_lookup_insert_ne.
  - intros ts x ty t d input created Hts j t0 Hj.
    destruct (Hts j t0 Hj) as (t1 & Ht1 & Hsame).
    exists t1. split; [|done]. by apply lookup_app_l_Some.
  - intros i t Ht. exists t. split; [done|apply same_identity_refl].
Qed.

End SessionsMore.

(** ** More on workflows *)

Section WorkflowsMore.

Variable env : Env.

Lemma in_take {A} (x : A) (n : nat) (l : list A) : x ∈ take n l → x ∈ l.
Proof. intros (i & Hi & _)%elem_of_take. by eapply list_elem_of_lookup_2. Qed.

Lemma execute_task_on_ok (t t' : Task) (w w' : World) (result : dict) :
  execute_task_on env t w = (Ok result, t', w') →
  status t' = py "completed" ∧ output_data t' = Some result
  ∧ backend_calls w' = S (backend_calls w).
Proof.
  rewrite execute_task_on_eq.
  destruct (dispatch env _ _ _) as [[result0|e] w2] eqn:Hd; [|done].
  apply dispatch_calls in Hd as [_ Hcalls]. specialize (Hcalls _ eq_refl).
  cbv zeta. destruct (_save_results env _ _) as [[[]|e] w3] eqn:Hs; [|done].
  apply save_results_files in Hs as [Hsame _].
  intros [= <- <- <-]. simpl. split; [done|]. split; [done|]. simpl in *. lia.
Qed.

(** The loop of [execute_workflow] when it comes to its end: every
    position was executed, and the results are the outputs that the tasks
    there now carry. *)
Lemma for_each_task_outputs (todo : list nat) :
  ∀ (acc results : list dict) (b b' : Builder),
    NoDup todo →
    (∀ i, i ∈ todo → i < length (tasks b)) →
    for_each_task env todo acc b = (Ok results, b') →
    ∃ outs,
      results = acc ++ outs
      ∧ Forall2 (λ i out, ∃ t', tasks b' !! i = Some t'
                                ∧ status t' = py "completed"
                                ∧ output_data t' = Some out) todo outs
      ∧ backend_calls (world b') = backend_calls (world b) + length todo.
Proof.
  induction todo as [|i rest IH]; intros acc results b b' Hnodup Hrange; simpl.
  - intros [= <- <-]. exists []. rewrite app_nil_r. repeat split; [constructor|lia].
  - apply NoDup_cons in Hnodup as [Hi Hnodup].
    destruct (lookup_lt_is_Some_2 (tasks b) i) as [t Ht].
    { apply Hrange. by left. }
    unfold bind at 1.
    destruct (execute_task env i b) as [[result|e] b1] eqn:Hexec; [|done].
    destruct (execute_task_at _ _ _ _ _ _ Ht Hexec) as (t' & Hon & Htasks & _).
    apply execute_task_on_ok in Hon as (Hst & Hout & Hcalls).
    intros Hloop.
    assert (∀ j, j ∈ rest → j < length (tasks b1)) as Hrange1.
    { intros j Hj. rewrite Htasks, length_insert. apply Hrange. by right. }
    pose proof (for_each_task_spec _ _ _ _ _ _ Hnodup Hrange1 Hloop)
      as (n & _ & _ & _ & _ & _ & _ & Hkeep & _).
    apply IH in Hloop as (outs & -> & Hall & Hcount); [|done..].
    exists (result :: outs). rewrite <- app_assoc. split; [done|]. split.
    + constructor; [|done]. exists t'. split; [|done].
      rewrite Hkeep.
      * rewrite Htasks. apply list_lookup_insert_eq. by eapply lookup_lt_Some.
      * intros Hin. apply Hi. by eapply in_take.
    + rewrite Hcount, Hcalls. simpl. lia.
Qed.

Lemma select_from_same_ids (pos : nat) (ts ts' : list Task) (task_ids : list pystr) :
  id <$> ts = id <$> ts' →
  select_from pos ts task_ids = select_from pos ts' task_ids.
Proof.
  revert pos ts'. induction ts as [|t ts IH]; intros pos [|t' ts'] Hids;
    try done.
  rewrite !fmap_cons in Hids. injection Hids as Hid Hrest. simpl.
  by rewrite Hid, (IH (S pos) ts' Hrest).
Qed.

Lemma outputs_of_selected (ts : list Task) (todo : list nat) (outs : list dict)
    (chosen : list Task) :
  Forall2 (λ i out, ∃ t', ts !! i = Some t' ∧ status t' = py "completed"
                          ∧ output_data t' = Some out) todo outs →
  (λ i, ts !! i) <$> todo = Some <$> chosen →
  Some <$> outs = output_data <$> chosen
  ∧ Forall (λ t, status t = py "completed") chosen.
Proof.
  intros Hall. revert chosen.
  induction Hall as [|i out todo outs (t' & Ht' & Hst & Hout) _ IH];
    intros [|t chosen] Heq; try done.
  rewrite !fmap_cons in Heq. injection Heq as Hi Hrest.
  destruct (IH _ Hrest) as [Houts Hdone].
  assert (t = t') as -> by congruence.
  split; [rewrite !fmap_cons; by f_equal|by constructor].
Qed.

(** X10.  When [execute_workflow] returns, the tasks whose id is in the
    workflow's list are all completed, the list returned is the list of
    their output_data in the order of [self.tasks], every other task is
    as it was, and the backend was called exactly once per result. *)
Theorem execute_workflow_returns_outputs (workflow_name : pystr)
    (task_ids : list pystr) (b b' : Builder) (results : list dict) :
  workflows b !! workflow_name = Some task_ids →
  execute_workflow env workflow_name b = (Ok results, b') →
  Some <$> results = output_data <$> filter (λ t, id t ∈ task_ids) (tasks b')
  ∧ Forall (λ t, status t = py "completed")
      (filter (λ t, id t ∈ task_ids) (tasks b'))
  ∧ (∀ j t, tasks b !! j = Some t → id t ∉ task_ids → tasks b' !! j = Some t)
  ∧ backend_calls (world b') = backend_calls (world b) + length results.
Proof.
  intros Hwf. rewrite (execute_workflow_eq _ _ _ _ Hwf). cbv zeta.
  destruct (for_each_task env _ _ _) as [[results0|e] b2] eqn:Hloop; [|done].
  intros [= <- <-]. simpl.
  pose proof (for_each_task_spec _ _ _ _ _ _ (select_NoDup _ _)
                (λ i, select_in_range _ _ i) Hloop)
    as (n & _ & _ & _ & _ & _ & Hsame & Hkeep & _).
  apply for_each_task_outputs in Hloop as (outs & Hres & Hall & Hcount);
    [|apply select_NoDup|intros i; apply select_in_range].
  simpl in *. subst results0.
  assert (select (tasks b2) task_ids = select (tasks b) task_ids) as Hsel.
  { apply select_from_same_ids. by apply same_tasks_ids. }
  destruct (outputs_of_selected _ _ _ (filter (λ t, id t ∈ task_ids) (tasks b2)) Hall)
    as [Houts Hdone].
  { by rewrite <- Hsel, select_lookups. }
  split; [done|]. split; [done|]. split.
  - intros j t Ht Hid. rewrite Hkeep; [done|].
    intros Hin%in_take. apply select_elem in Hin as (t0 & Ht0 & Hin).
    by simplify_eq.
  - rewrite Hcount, select_length.
    apply (f_equal length) in Houts. rewrite !length_fmap in Houts.
    rewrite Houts. f_equal.
    rewrite <- !select_length. by rewrite Hsel.
Qed.

(** X11.  A name that is not registered makes [execute_workflow] and
    [export_workflow_results] raise [ValueError] at once: the message
    quotes the name, the builder is exactly as before, nothing is printed,
    no task is run, the clock is not read and no file is written. *)
Theorem unknown_workflow_is_refused (workflow_name : pystr) (b : Builder) :
  workflows b !! workflow_name = None →
  execute_workflow env workflow_name b
    = (Raise (ValueError (msg_workflow_missing workflow_name)), b)
  ∧ (∀ format,
       export_workflow_results env workflow_name format b
       = (Raise (ValueError (msg_workflow_missing workflow_name)), b))
  ∧ ∃ before after,
      msg_workflow_missing workflow_name = before ++ workflow_name ++ after.
Proof.
  intros Hnone. unfold execute_workflow, export_workflow_results, bind, gets.
  simpl. rewrite Hnone. repeat split. by eexists _, _.
Qed.

(** X12.  [create_workflow] always succeeds, checks nothing and does not
    merge: registering a name again replaces the list it had, so that the
    builder is the one the second call alone would have given; other
    names, the tasks and the world are untouched. *)
Theorem create_workflow_replaces (workflow_name : pystr) (ids1 ids2 : list pystr)
    (b : Builder) :
  (create_workflow workflow_name ids2 (create_workflow workflow_name ids1 b).2)
  = (create_workflow workflow_name ids2 b)
  ∧ (create_workflow workflow_name ids2 b).1 = Ok tt
  ∧ workflows (create_workflow workflow_name ids2 b).2 !! workflow_name = Some ids2
  ∧ (∀ other, other ≠ workflow_name →
       workflows (create_workflow workflow_name ids2 b).2 !! other
       = workflows b !! other)
  ∧ tasks (create_workflow workflow_name ids2 b).2 = tasks b
  ∧ world (create_workflow workflow_name ids2 b).2 = world b.
Proof.
  unfold create_workflow, modify, set_workflows. simpl.
  split; [by rewrite insert_insert_eq|]. split; [done|].
  split; [apply lookup_insert_eq|]. split; [|done].
  intros other Hne. by apply lookup_insert_ne.
Qed.

(** X13.  When the export file cannot be opened, [export_workflow_results]
    raises the error of [open]: no file is written or changed, and no
    task is touched. *)
Theorem export_that_cannot_write (workflow_name : pystr) (task_ids : list pystr)
    (b : Builder) (e : Exc) :
  workflows b !! workflow_name = Some task_ids →
  open_for_writing env (fs_accesses (world b))
    (results_dir (workflow_name ++ py "_results.json")) = Some e →
  ∃ b',
    export_workflow_results env workflow_name (py "json") b = (Raise e, b')
    ∧ files (world b') = files (world b)
    ∧ tasks b' = tasks b
    ∧ workflows b' = workflows b.
Proof.
  intros Hwf Hopen.
  unfold export_workflow_results, bind, gets. simpl. rewrite Hwf.
  unfold zoom, datetime_now, write_json, ret. simpl. rewrite Hopen. simpl.
  by eexists.
Qed.

End WorkflowsMore.

(** ** What a saved record keeps *)



Lemma str_TaskType_not_value (ty : TaskType) : str_TaskType ty ≠ value ty.
Proof. destruct ty; by intros ?%py_inj. Qed.

(** X15.  In every saved record the type field reads back as the text
    "TaskType.<NAME>" of the member: neither the member itself, as
    [list_tasks] reports it, nor the value tag that the file name
    carries. *)
Theorem saved_type_is_the_member_name (t : Task) :
  item (reload (asdict t)) (py "type") = Some (VStr (str_TaskType (type t)))
  ∧ item (reload (asdict t)) (py "type") ≠ item (asdict t) (py "type")
  ∧ item (reload (asdict t)) (py "type") ≠ Some (VStr (value (type t))).
Proof.
  unfold asdict. rewrite reload_dict. cbn [map fst snd]. simpl.
  split; [done|]. split; [done|].
  intros [= Heq]. by apply str_TaskType_not_value in Heq.
Qed.

(** ** The statistics of the task manager *)

Lemma count_get_set (counts : list (pystr * nat)) (key key' : pystr) (n : nat) :
  count_get (count_set counts key n) key'
  = if bool_decide (key = key') then n else count_get counts key'.
Proof.
  induction counts as [|[k m] counts IH]; simpl.
  - done.
  - destruct (decide (k = key)) as [->|Hne].
    + rewrite bool_decide_true by done. simpl. by case_bool_decide.
    + rewrite (bool_decide_false (k = key)) by done. simpl.
      rewrite IH. repeat case_bool_decide; by simplify_eq.
Qed.

Lemma count_set_keys (counts : list (pystr * nat)) (key : pystr) (n : nat) :
  NoDup (fst <$> counts) →
  NoDup (fst <$> count_set counts key n)
  ∧ ∀ k, k ∈ fst <$> count_set counts key n → k = key ∨ k ∈ fst <$> counts.
Proof.
  induction counts as [|[k m] counts IH]; simpl.
  - intros _. split; [apply NoDup_singleton|].
    intros k' ->%list_elem_of_singleton. by left.
  - intros [Hk Hrest]%NoDup_cons. destruct (IH Hrest) as [IHn IHk].
    case_bool_decide as Heq; simpl.
    + split; [by apply NoDup_cons|]. intros k'. by right.
    + split.
      * apply NoDup_cons. split; [|done].
        intros [->|Hin]%IHk; done.
      * intros k' [->|Hin]%elem_of_cons; [right; by left|].
        destruct (IHk k' Hin) as [->|?]; [by left|right; by right].
Qed.

Lemma count_set_total (counts : list (pystr * nat)) (key : pystr) :
  sum_list (snd <$> count_set counts key (count_get counts key + 1))
  = sum_list (snd <$> counts) + 1.
Proof.
  induction counts as [|[k m] counts IH]; simpl; [done|].
  destruct (decide (k = key)) as [Heq|Hne].
  - rewrite !bool_decide_true by done. simpl. lia.
  - rewrite !bool_decide_false by done. simpl.
    change (list_fmap (pystr * nat)%type nat snd) with (fmap (M:=list) (@snd pystr nat)).
    rewrite IH. lia.
Qed.

Lemma status_counts_from_spec (ts : list Task) :
  ∀ counts,
    NoDup (fst <$> counts) →
    (∀ s, count_get (status_counts_from counts ts) s
          = count_get counts s + length (filter (λ t, status t = s) ts))
    ∧ NoDup (fst <$> status_counts_from counts ts)
    ∧ sum_list (snd <$> status_counts_from counts ts)
      = sum_list (snd <$> counts) + length ts.
Proof.
  induction ts as [|t ts IH]; intros counts Hnodup; simpl.
  - repeat split; [intros; lia|done|lia].
  - destruct (count_set_keys counts (status t) (count_get counts (status t) + 1) Hnodup)
      as [Hnodup' _].
    destruct (IH _ Hnodup') as (Hget & Hkeys & Htotal).
    split; [|split; [done|]].
    + intros s. rewrite Hget, count_get_set, filter_cons.
      case_bool_decide as Heq.
      * rewrite decide_True by done. subst. simpl. lia.
      * rewrite decide_False by done. lia.
    + rewrite Htotal, count_set_total. lia.
Qed.

(** X16.  The statistics of the task manager count every task once:
    each status is listed once, with the number of tasks that have it,
    and the numbers add up to the number of tasks. *)
Theorem status_counts_count (ts : list Task) :
  (∀ s, count_get (status_counts ts) s = length (filter (λ t, status t = s) ts))
  ∧ NoDup (fst <$> status_counts ts)
  ∧ sum_list (snd <$> status_counts ts) = length ts.
Proof.
  unfold status_counts.
  destruct (status_counts_from_spec ts []) as (Hget & Hkeys & Htotal);
    [constructor|].
  split; [|split; [done|]].
  - intros s. by rewrite Hget.
  - by rewrite Htotal.
Qed.

(** ** Choosing the tasks of a workflow by number *)



(** ** The title column *)

(** X18.  The title shown in the task table is never longer than 33
    characters: a title of at most 30 characters is shown as it is, a
    longer one is cut after 30 characters and followed by three dots. *)
Theorem shown_title_bounded (task_title : pystr) :
  length (shown_title task_title) ≤ 33
  ∧ (length task_title ≤ 30 → shown_title task_title = task_title)
  ∧ (30 < length task_title →
     shown_title task_title = take 30 task_title ++ py "..."
     ∧ length (shown_title task_title) = 33).
Proof.
  unfold shown_title.
  destruct (Nat.ltb_spec 30 (length task_title)) as [Hlong|Hshort].
  - rewrite length_app, length_take. change (length (py "...")) with 3.
    split; [lia|]. split; [intros; lia|]. intros _. split; [done|lia].
  - rewrite app_nil_r, length_take.
    split; [lia|]. split; [intros _; by apply take_ge|]. intros; lia.
Qed.

(** ** Concrete runs for the further properties *)

Lemma analyze_data_rejects_witness :
  _analyze_data stub_env [] empty_world
    = (Raise (ValueError msg_data_file_missing), empty_world)
  ∧ _analyze_data stub_env [ (py "data_path", VStr (py "sales.csv")) ] empty_world
    = (Raise (ValueError msg_data_file_missing), tick_fs empty_world).
Proof.
  destruct (analyze_data_rejects stub_env [] empty_world) as [Hfalse _].
  destruct (analyze_data_rejects stub_env
              [ (py "data_path", VStr (py "sales.csv")) ] empty_world)
    as (_ & Hmissing & _).
  split.
  - apply Hfalse. reflexivity.
  - apply (Hmissing (py "sales.csv")); [reflexivity|discriminate|reflexivity].
Defined.

Lemma execute_workflow_returns_outputs_witness :
  ∃ results b',
    execute_workflow stub_env (py "w") two_tasks = (Ok results, b')
    ∧ (Some <$> results
       = output_data <$> filter (λ t, id t ∈ [ py "task_1_120007"; py "task_0_120007" ])
                           (tasks b')
       ∧ Forall (λ t, status t = py "completed")
           (filter (λ t, id t ∈ [ py "task_1_120007"; py "task_0_120007" ]) (tasks b'))
       ∧ (∀ j t, tasks two_tasks !! j = Some t →
                 id t ∉ [ py "task_1_120007"; py "task_0_120007" ] →
                 tasks b' !! j = Some t)
       ∧ backend_calls (world b') = backend_calls (world two_tasks) + length results).
Proof.
  eexists _, _. split; [vm_compute; reflexivity|].
  apply (execute_workflow_returns_outputs stub_env (py "w")
           [ py "task_1_120007"; py "task_0_120007" ] two_tasks).
  - vm_compute. reflexivity.
  - vm_compute. reflexivity.
Defined.

Lemma unknown_workflow_is_refused_witness :
  execute_workflow stub_env (py "w") (new_builder empty_world)
    = (Raise (ValueError (msg_workflow_missing (py "w"))), new_builder empty_world)
  ∧ (∀ format,
       export_workflow_results stub_env (py "w") format (new_builder empty_world)
       = (Raise (ValueError (msg_workflow_missing (py "w"))), new_builder empty_world))
  ∧ ∃ before after, msg_workflow_missing (py "w") = before ++ py "w" ++ after.
Proof.
  apply (unknown_workflow_is_refused stub_env (py "w") (new_builder empty_world)).
  reflexivity.
Defined.

Lemma export_that_cannot_write_witness :
  ∃ b',
    export_workflow_results read_only_env (py "w") (py "json") two_tasks
      = (Raise {| exc_class := py "PermissionError";
                  exc_msg := py "[Errno 13] Permission denied" |}, b')
    ∧ files (world b') = files (world two_tasks)
    ∧ tasks b' = tasks two_tasks
    ∧ workflows b' = workflows two_tasks.
Proof.
  apply (export_that_cannot_write read_only_env (py "w")
           [ py "task_1_120007"; py "task_0_120007" ] two_tasks).
  - vm_compute. reflexivity.
  - reflexivity.
Defined.

(** The statistics after one task completed and one failed. *)
Lemma status_counts_example :
  status_counts
    (tasks (session stub_env
              [ call_add_task TEXT_SUMMARIZATION (py "A") (py "first")
                  [ (py "text", VStr (py "one two three")) ];
                call_add_task TEXT_SUMMARIZATION (py "B") (py "second")
                  [ (py "text", VStr (py " ")) ];
                call_add_task TEXT_SUMMARIZATION (py "C") (py "third")
                  [ (py "text", VStr (py "four five")) ];
                call_execute_task 0; call_execute_task 1; call_execute_task 2 ]
              (new_builder empty_world)).2)
  = [ (py "completed", 2); (py "failed", 1) ].
Proof. by vm_compute. Qed.

(** A result that cannot be written.  The first run saves the record of
    the task.  On the second run the backend answers with a lone
    surrogate: the handler returns, the file is opened, and the codec
    refuses the summary.  The call raises [UnicodeEncodeError], the task
    is recorded as failed, and the record of the first run is lost: the
    file is left unfinished. *)
Lemma surrogate_loses_the_result_file :
  ∃ result t1 w1 e t2 w2,
    execute_task_on stub_env
      (summarization_task (py "task_0_120007") (py "A") (py "one two three"))
      empty_world = (Ok result, t1, w1)
    ∧ result_file t1 = py "results/task_0_120007_text_summarization.json"
    ∧ files w1 !! result_file t1 = Some (document (json_dump (asdict t1)))
    ∧ execute_task_on surrogate_env t1 w1 = (Raise e, t2, w2)
    ∧ exc_class e = py "UnicodeEncodeError"
    ∧ exc_msg e = py "'utf-8' codec can't encode character '\ud800' in position 1: surrogates not allowed"
    ∧ status t2 = py "failed"
    ∧ completed_at t2 = Some (isoformat noon)
    ∧ files w2 !! result_file t1 = Some unfinished.
Proof.
  do 6 eexists. split; [vm_compute; reflexivity|].
  split; [vm_compute; reflexivity|].
  split; [vm_compute; reflexivity|].
  split; [vm_compute; reflexivity|]. by vm_compute.
Qed.

(** The path of a file in the results directory, for names with and
    without slashes. *)
Lemma results_dir_examples :
  results_dir (py "w_results.json") = py "results/w_results.json"
  ∧ results_dir (py "./w_results.json") = py "results/w_results.json"
  ∧ results_dir (py "a//b/./c_results.json") = py "results/a/b/c_results.json"
  ∧ results_dir (py "../w_results.json") = py "results/../w_results.json"
  ∧ results_dir (py "/abs_results.json") = py "/abs_results.json"
  ∧ results_dir (py "//x/y_results.json") = py "//x/y_results.json"
  ∧ results_dir (py "///x//y_results.json") = py "/x/y_results.json".
Proof. by vm_compute. Qed.
